(** * The orthomosaic task pipeline of odm-clean

    A shallow embedding of [src/utils/__init__.py] (the background task
    processor and its three calls to the remote service) and of [routes.py]
    (the request handlers), with the properties of the task lifecycle that
    follow from the code.

    Python strings are modelled as [string] (byte strings, with ASCII case
    folding), the task registry [tasks] as a [gmap] from task id to record,
    the disk as two finite maps (regular files and directory trees), and the
    code's effects with a state-and-exception monad.  What the outside world
    decides (the bytes of an archive, what the unpacking tools make of them,
    the remote service's answers) is a parameter, the record [world]. *)

From Stdlib Require Import ZArith Ascii String List Lia.
From stdpp Require Import base option list gmap strings pretty.

(** ** Python string primitives *)

Module Py.

(** [str.lower] on ASCII. *)
Definition lower_ascii (c : ascii) : ascii :=
  let n := nat_of_ascii c in
  if (Nat.leb 65 n && Nat.leb n 90)%bool then ascii_of_nat (n + 32) else c.

Fixpoint lower (s : string) : string :=
  match s with
  | EmptyString => EmptyString
  | String c r => String (lower_ascii c) (lower r)
  end.

(** [s.endswith(suffix)]: some tail of [s] is [suffix]. *)
Fixpoint endswith (s suffix : string) : bool :=
  (String.eqb s suffix ||
   match s with
   | EmptyString => false
   | String _ r => endswith r suffix
   end)%bool.

(** [s.endswith((a, b, ...))] with a tuple of suffixes. *)
Definition endswith_any (s : string) (suffixes : list string) : bool :=
  existsb (endswith s) suffixes.

(** [s.split(sep)] for a one-character separator. *)
Fixpoint split (sep : ascii) (s : string) : list string :=
  match s with
  | EmptyString => [EmptyString]
  | String c r =>
      if Ascii.eqb c sep then EmptyString :: split sep r
      else match split sep r with
           | h :: t => String c h :: t
           | [] => [String c EmptyString]
           end
  end.

(** [l[-1]] on a list of strings ([split] never returns the empty list). *)
Definition last_item (l : list string) : string := List.last l EmptyString.

(** [os.path.join(a, b)] for a non-empty relative [a] and a [b] that is not
    absolute, which is how the program uses it. *)
Definition path_join (a b : string) : string := a +:+ "/" +:+ b.

(** Truth value of a string-or-None, as in [if error:]. *)
Definition truthy (o : option string) : bool :=
  match o with
  | Some s => negb (String.eqb s "")
  | None => false
  end.

End Py.

(** ** Data model *)

(** The values the code stores under the key ['status']. *)
Inductive status_t : Set :=
  | queued | extracting | uploading | processing | downloading | completed | failed.

#[global] Instance status_t_eq_dec : EqDecision status_t.
Proof. solve_decision. Defined.

Definition status_str (s : status_t) : string :=
  match s with
  | queued => "queued"
  | extracting => "extracting"
  | uploading => "uploading"
  | processing => "processing"
  | downloading => "downloading"
  | completed => "completed"
  | failed => "failed"
  end.

(** A task record: the dict stored in [tasks[task_id]].  The first six keys
    are written when the record is created; ['webodm_task_id'] and
    ['output_file'] are absent until [process_task] assigns them (the remote
    identifier itself may be [None], when the response carries no uuid). *)
Record task : Type := Task {
  task_id : string;
  status : status_t;
  progress : Z;
  message : string;
  filename : string;
  created_at : Z;
  webodm_task_id : option (option string);
  output_file : option string
}.

Definition set_status (v : status_t) (t : task) : task :=
  Task (task_id t) v (progress t) (message t) (filename t) (created_at t)
       (webodm_task_id t) (output_file t).
Definition set_progress (v : Z) (t : task) : task :=
  Task (task_id t) (status t) v (message t) (filename t) (created_at t)
       (webodm_task_id t) (output_file t).
Definition set_message (v : string) (t : task) : task :=
  Task (task_id t) (status t) (progress t) v (filename t) (created_at t)
       (webodm_task_id t) (output_file t).
Definition set_webodm_task_id (v : option string) (t : task) : task :=
  Task (task_id t) (status t) (progress t) (message t) (filename t) (created_at t)
       (Some v) (output_file t).
Definition set_output_file (v : string) (t : task) : task :=
  Task (task_id t) (status t) (progress t) (message t) (filename t) (created_at t)
       (webodm_task_id t) (Some v).

(** Python exceptions, by class.  All of them derive from [Exception]. *)
Inductive exn : Type :=
  | PyException (msg : string)
  | FileNotFoundError (msg : string)
  | FileExistsError (msg : string)
  | IsADirectoryError (msg : string)
  | NotADirectoryError (msg : string)
  | BadZipFile (msg : string)
  | KeyError (key : string)
  | HTTPException (status_code : Z) (detail : string).

(** [str(e)]. *)
Definition str (e : exn) : string :=
  match e with
  | PyException m | FileNotFoundError m | FileExistsError m
  | IsADirectoryError m | NotADirectoryError m | BadZipFile m => m
  | KeyError k => "'" +:+ k +:+ "'"
  | HTTPException c d => pretty c +:+ ": " +:+ d
  end.

Definition is_FileNotFoundError (e : exn) : bool :=
  match e with FileNotFoundError _ => true | _ => false end.

(** What lies below a directory. *)
#[warnings="-register-all"]
Inductive entry : Type :=
  | File (name : string)
  | Dir (name : string) (children : list entry).

Definition entry_name (e : entry) : string :=
  match e with File n => n | Dir n _ => n end.
Definition is_dir (e : entry) : bool :=
  match e with File _ => false | Dir _ _ => true end.
Definition is_file (e : entry) : bool := negb (is_dir e).

(** *** The outside world *)

(** [zip_ref.extractall(dest)]: the tree below [dest] afterwards, or the
    exception [zipfile] raises on these bytes. *)
Inductive zip_outcome : Type :=
  | ZipOk (tree : list entry)
  | ZipRaise (e : exn).

(** [subprocess.run(['unrar', 'x', '-y', archive, dest])]: return code,
    standard error, and the tree below [dest] afterwards. *)
Record rar_outcome : Type := RarRun {
  returncode : Z;
  stderr : string;
  rar_tree : list entry
}.

(** The response to [POST /task/new]. *)
Inductive post_body : Type :=
  | PostJson (uuid : option string)
  | PostBadJson (msg : string).
Inductive post_outcome : Type :=
  | PostRaise (msg : string)
  | PostResp (status_code : Z) (body : post_body).

(** The response to [GET /task/<id>/info]: [data['status']['code']] (absent
    when the body lacks it) and [data.get('progress')]. *)
Inductive info_body : Type :=
  | InfoJson (code : option Z) (progress : option Z)
  | InfoBadJson.
Inductive get_outcome : Type :=
  | GetRaise
  | GetResp (status_code : Z) (body : info_body).

(** The response to [GET /task/<id>/download/all.zip]: the chunks that
    arrive and whether the stream breaks after them. *)
Inductive download_outcome : Type :=
  | DlRaise
  | DlResp (status_code : Z) (chunks : list string) (broken : bool).

(** The outside world: the identifiers [uuid4] draws, in order; what
    [zipfile] and [unrar] ([None] when it is not installed) make of the bytes
    of an archive (absent for [unrar] when there is no such file) and of the
    tree already below the destination; [mimetypes.guess_type]; and the
    remote service's answers to the upload (of the files, as name and MIME
    type, under a task name), to the n-th status request and to the
    download. *)
Record world : Type := World {
  uuid4 : nat -> string;
  zip_extractall : string -> list entry -> zip_outcome;
  unrar : option (option string -> list entry -> rar_outcome);
  guess_type : string -> option string;
  requests_post : list (string * string) -> string -> post_outcome;
  requests_get_info : option string -> nat -> get_outcome;
  requests_get_download : option string -> download_outcome
}.

(** *** Program state *)

(** [tasks] is the registry; [files] the regular files on disk with their
    bytes and [dirs] the directories [os.makedirs] created, each with the tree
    below it (the roots are assumed not to nest: task ids are UUIDs);
    [clock] is the time, [drawn] the number of UUIDs drawn, [polled] the
    number of status requests sent, [background] the queue of
    [BackgroundTasks].  [log] is a history variable: the record written by
    each assignment to the registry, newest first, which is what a concurrent
    reader of [tasks] can observe. *)
Record state : Type := State {
  tasks : gmap string task;
  files : gmap string string;
  dirs : gmap string (list entry);
  clock : Z;
  drawn : nat;
  polled : nat;
  background : list (string * string);
  log : list (string * task)
}.

Definition with_tasks (m : gmap string task) (l : list (string * task)) (s : state) : state :=
  State m (files s) (dirs s) (clock s) (drawn s) (polled s) (background s) l.
Definition with_files (m : gmap string string) (s : state) : state :=
  State (tasks s) m (dirs s) (clock s) (drawn s) (polled s) (background s) (log s).
Definition with_dirs (m : gmap string (list entry)) (s : state) : state :=
  State (tasks s) (files s) m (clock s) (drawn s) (polled s) (background s) (log s).
Definition with_clock (c : Z) (s : state) : state :=
  State (tasks s) (files s) (dirs s) c (drawn s) (polled s) (background s) (log s).
Definition with_drawn (n : nat) (s : state) : state :=
  State (tasks s) (files s) (dirs s) (clock s) n (polled s) (background s) (log s).
Definition with_polled (n : nat) (s : state) : state :=
  State (tasks s) (files s) (dirs s) (clock s) (drawn s) n (background s) (log s).
Definition with_background (b : list (string * string)) (s : state) : state :=
  State (tasks s) (files s) (dirs s) (clock s) (drawn s) (polled s) b (log s).

(** ** The monad of the code's effects *)

(** A computation returns, raises, or is still inside the polling loop when
    the observation ends ([Polling]: the loop has used up the iterations it
    was given). *)
Inductive outcome (A : Type) : Type :=
  | Ret (a : A) (s : state)
  | Raise (e : exn) (s : state)
  | Polling (s : state).
Arguments Ret {A} a s.
Arguments Raise {A} e s.
Arguments Polling {A} s.

Definition M (A : Type) : Type := state -> outcome A.

Definition ret {A} (a : A) : M A := fun s => Ret a s.
Definition raise {A} (e : exn) : M A := fun s => Raise e s.
Definition bind {A B} (m : M A) (k : A -> M B) : M B :=
  fun s =>
    match m s with
    | Ret a s' => k a s'
    | Raise e s' => Raise e s'
    | Polling s' => Polling s'
    end.

(** [try: body except Exception as e: handler(e)]. *)
Definition try_except {A} (body : M A) (handler : exn -> M A) : M A :=
  fun s =>
    match body s with
    | Raise e s' => handler e s'
    | r => r
    end.

Declare Scope py_scope.
Delimit Scope py_scope with py.
Notation "x <- m ;; k" := (bind m (fun x => k))
  (at level 100, m at next level, right associativity) : py_scope.
Notation "m ;;; k" := (bind m (fun _ => k))
  (at level 100, right associativity) : py_scope.
Local Open Scope py_scope.

Definition final_state {A} (r : outcome A) : state :=
  match r with Ret _ s | Raise _ s | Polling s => s end.

(** ** Registry, clock and disk primitives *)

(** The registry after [tasks[task_id] = t], with the history extended. *)
Definition write (task_id : string) (t : task) (s : state) : state :=
  with_tasks (<[task_id := t]> (tasks s)) ((task_id, t) :: log s) s.

(** [tasks[task_id][key] = v], as an update [upd] of the record: a
    [KeyError] when the task is not registered. *)
Definition set_item (task_id : string) (upd : task -> task) : M unit :=
  fun s =>
    match tasks s !! task_id with
    | None => Raise (KeyError task_id) s
    | Some t => Ret tt (write task_id (upd t) s)
    end.

(** [tasks[task_id] = record]. *)
Definition new_item (task_id : string) (t : task) : M unit :=
  fun s => Ret tt (write task_id t s).

Definition time_time : M Z := fun s => Ret (clock s) s.
Definition time_sleep (seconds : Z) : M unit :=
  fun s => Ret tt (with_clock (clock s + seconds)%Z s).

Definition uuid_lib_uuid4 (w : world) : M string :=
  fun s => Ret (uuid4 w (drawn s)) (with_drawn (S (drawn s)) s).

(** The directories below [parent] that [e] contributes, top-down, each with
    its path and its entries. *)
Fixpoint walk_entry (parent : string) (e : entry) : list (string * list entry) :=
  match e with
  | File _ => []
  | Dir n children =>
      let p := Py.path_join parent n in
      (p, children) :: flat_map (walk_entry p) children
  end.

Definition walk_dirs (top : string) (tree : list entry) : list (string * list entry) :=
  (top, tree) :: flat_map (walk_entry top) tree.

(** Every directory on disk, with its path. *)
Definition all_dirs (s : state) : list (string * list entry) :=
  flat_map (fun rt => walk_dirs (fst rt) (snd rt)) (map_to_list (dirs s)).

(** The entries of the directory at path [p], when there is one. *)
Definition resolve_dir (s : state) (p : string) : option (list entry) :=
  match dirs s !! p with
  | Some tree => Some tree
  | None => snd <$> List.find (fun d => String.eqb (fst d) p) (all_dirs s)
  end.

(** Whether [p] is a regular file, in [files] or inside a directory tree. *)
Definition is_regular_file (s : state) (p : string) : bool :=
  (bool_decide (is_Some (files s !! p)) ||
   existsb (fun d => existsb (fun e => is_file e &&
                        String.eqb (Py.path_join (fst d) (entry_name e)) p) (snd d))
           (all_dirs s))%bool.

(** [os.path.exists(p)]; the empty path never exists. *)
Definition os_path_exists (s : state) (p : string) : bool :=
  (negb (String.eqb p "") &&
   (is_regular_file s p || bool_decide (is_Some (resolve_dir s p))))%bool.

(** [os.makedirs(p, exist_ok=True)]. *)
Definition os_makedirs (p : string) : M unit :=
  fun s =>
    match resolve_dir s p with
    | Some _ => Ret tt s
    | None =>
        if is_regular_file s p then Raise (FileExistsError p) s
        else Ret tt (with_dirs (<[p := []]> (dirs s)) s)
    end.

(** [os.walk(top)]: one triple [(root, dirs, files)] per directory, top-down;
    nothing when [top] is not a directory. *)
Definition os_walk (top : string) : M (list (string * list string * list string)) :=
  fun s =>
    Ret (match resolve_dir s top with
         | Some tree =>
             (fun d => (fst d,
                        entry_name <$> List.filter is_dir (snd d),
                        entry_name <$> List.filter is_file (snd d)))
               <$> walk_dirs top tree
         | None => []
         end) s.

(** [os.listdir(p)]: the names of files and directories alike. *)
Definition os_listdir (p : string) : M (list string) :=
  fun s =>
    match resolve_dir s p with
    | Some tree => Ret (entry_name <$> tree) s
    | None =>
        if is_regular_file s p then Raise (NotADirectoryError p) s
        else Raise (FileNotFoundError p) s
    end.

(** [open(p, 'rb')]. *)
Definition open_rb (p : string) : M unit :=
  fun s =>
    if bool_decide (is_Some (resolve_dir s p)) then Raise (IsADirectoryError p) s
    else if is_regular_file s p then Ret tt s
    else Raise (FileNotFoundError p) s.

(** [shutil.rmtree(p, ignore_errors=True)] on a directory root. *)
Definition shutil_rmtree (p : string) : M unit :=
  fun s => Ret tt (with_dirs (delete p (dirs s)) s).

(** [os.remove(p)]. *)
Definition os_remove (p : string) : M unit :=
  fun s =>
    match files s !! p with
    | Some _ => Ret tt (with_files (delete p (files s)) s)
    | None =>
        if bool_decide (is_Some (resolve_dir s p)) then Raise (IsADirectoryError p) s
        else Raise (FileNotFoundError p) s
    end.

(** ** src/utils/__init__.py *)

Definition OUTPUT_DIR : string := "outputs".
Definition TEMP_DIR : string := "temp".

Definition image_extensions : list string := [".jpg"; ".jpeg"; ".png"; ".tif"; ".tiff"].

(** [filename.lower().endswith(image_extensions)]. *)
Definition is_image (filename : string) : bool :=
  Py.endswith_any (Py.lower filename) image_extensions.

(** The MIME type of one image: [mimetypes.guess_type], then the fallback on
    the extension. *)
Definition mime_type_of (w : world) (filepath filename : string) : string :=
  match guess_type w filepath with
  | Some mime_type => mime_type
  | None =>
      if Py.endswith_any (Py.lower filename) [".jpg"; ".jpeg"] then "image/jpeg"
      else if Py.endswith (Py.lower filename) ".png" then "image/png"
      else if Py.endswith_any (Py.lower filename) [".tif"; ".tiff"] then "image/tiff"
      else "application/octet-stream"
  end.

(** The loop over [os.listdir(image_folder)] that opens every image and
    collects [files_list], as (filename, MIME type). *)
Fixpoint collect_images (w : world) (image_folder : string) (filenames : list string)
    (files_list : list (string * string)) : M (list (string * string)) :=
  match filenames with
  | [] => ret files_list
  | filename :: rest =>
      if is_image filename then
        let filepath := Py.path_join image_folder filename in
        let mime_type := mime_type_of w filepath filename in
        open_rb filepath ;;;
        collect_images w image_folder rest (files_list ++ [(filename, mime_type)])
      else collect_images w image_folder rest files_list
  end.

(** Returns the pair [(webodm_task_id, error)]. *)
Definition upload_images_to_webodm (w : world) (image_folder task_name : string)
  : M (option string * option string) :=
  filenames <- os_listdir image_folder ;;
  files_list <- collect_images w image_folder filenames [] ;;
  match files_list with
  | [] => ret (None, Some "No images found")
  | _ =>
      match requests_post w files_list task_name with
      | PostRaise msg => ret (None, Some msg)
      | PostResp status_code body =>
          if (status_code =? 200)%Z then
            match body with
            | PostJson uuid => ret (uuid, None)
            | PostBadJson msg => ret (None, Some msg)
            end
          else ret (None, Some ("Error: " +:+ pretty status_code))
      end
  end.

(** The dict [check_webodm_task_status] returns. *)
Record status_data : Type := StatusData {
  sd_status_code : Z;
  sd_progress : Z
}.

(** What [check_webodm_task_status] makes of a response: [None] on a
    transport failure, a response other than 200, or a body without a status
    code; [progress] defaults to 0. *)
Definition parse_info (r : get_outcome) : option status_data :=
  match r with
  | GetRaise => None
  | GetResp status_code body =>
      if (status_code =? 200)%Z then
        match body with
        | InfoJson (Some code) progress => Some (StatusData code (default 0%Z progress))
        | InfoJson None _ | InfoBadJson => None
        end
      else None
  end.

Definition check_webodm_task_status (w : world) (webodm_task_id : option string)
  : M (option status_data) :=
  fun s =>
    Ret (parse_info (requests_get_info w webodm_task_id (polled s)))
        (with_polled (S (polled s)) s).

(** Writes the chunks that arrive to [output_path]; [False] on any failure,
    also when part of the file was written. *)
Definition download_from_webodm (w : world) (webodm_task_id : option string)
    (output_path : string) : M bool :=
  fun s =>
    match requests_get_download w webodm_task_id with
    | DlRaise => Ret false s
    | DlResp status_code chunks broken =>
        if (status_code =? 200)%Z then
          if bool_decide (is_Some (resolve_dir s output_path)) then Ret false s
          else
            let s' := with_files (<[output_path := String.concat "" chunks]> (files s)) s in
            Ret (negb broken) s'
        else Ret false s
    end.

(** The body of the [try] in [extract_archive]. *)
Definition extract_archive_body (w : world) (archive_path extract_dir file_extension : string)
  : M bool :=
  fun s =>
    let below := default [] (dirs s !! extract_dir) in
    if String.eqb file_extension "zip" then
      match files s !! archive_path with
      | None => Raise (FileNotFoundError archive_path) s
      | Some bytes =>
          match zip_extractall w bytes below with
          | ZipOk tree => Ret true (with_dirs (<[extract_dir := tree]> (dirs s)) s)
          | ZipRaise e => Raise e s
          end
      end
    else if String.eqb file_extension "rar" then
      match unrar w with
      | None => Raise (FileNotFoundError "unrar") s
      | Some run =>
          let result := run (files s !! archive_path) below in
          let s' := with_dirs (<[extract_dir := rar_tree result]> (dirs s)) s in
          if (returncode result =? 0)%Z then Ret true s'
          else Raise (PyException ("RAR extraction failed: " +:+ stderr result)) s'
      end
    else Raise (PyException ("Unsupported archive format: " +:+ file_extension)) s.

Definition unrar_not_installed : string :=
  "unrar is not installed. Please install: apt-get install unrar or brew install unrar".

Definition extract_archive (w : world) (archive_path extract_dir : string) : M bool :=
  let file_extension := Py.last_item (Py.split "." (Py.lower archive_path)) in
  try_except (extract_archive_body w archive_path extract_dir file_extension)
    (fun e =>
       if is_FileNotFoundError e then raise (PyException unrar_not_installed)
       else raise (PyException ("Extraction failed: " +:+ str e))).

(** The inner loop of the image search: the first image among [files] sets
    [image_folder] to [root] and leaves the loop. *)
Fixpoint find_in_files (files : list string) (root image_folder : string) : string :=
  match files with
  | [] => image_folder
  | file :: rest =>
      if is_image file then root else find_in_files rest root image_folder
  end.

(** The outer loop over [os.walk(extract_dir)]: its body ends in an
    unconditional [break], so only the first triple is looked at. *)
Definition find_image_folder (walk : list (string * list string * list string))
    (image_folder : string) : string :=
  match walk with
  | [] => image_folder
  | (root, _, files) :: _ => find_in_files files root image_folder
  end.

(** The branch [if status_code == 40] of the polling loop. *)
Definition download_results (w : world) (task_id : string) (webodm_task_id : option string)
  : M unit :=
  set_item task_id (set_status downloading) ;;;
  set_item task_id (set_message "Downloading results...") ;;;
  let output_file := Py.path_join OUTPUT_DIR (task_id +:+ ".zip") in
  success <- download_from_webodm w webodm_task_id output_file ;;
  if success : bool then
    set_item task_id (set_status completed) ;;;
    set_item task_id (set_message "Complete!") ;;;
    set_item task_id (set_output_file output_file) ;;;
    set_item task_id (set_progress 100)
  else
    set_item task_id (set_status failed) ;;;
    set_item task_id (set_message "Download failed").

(** The [while True] loop, for at most [fuel] iterations. *)
Fixpoint poll_loop (w : world) (fuel : nat) (task_id : string)
    (webodm_task_id : option string) : M unit :=
  match fuel with
  | O => fun s => Polling s
  | S fuel' =>
      status_data <- check_webodm_task_status w webodm_task_id ;;
      match status_data with
      | None => time_sleep 10 ;;; poll_loop w fuel' task_id webodm_task_id
      | Some sd =>
          set_item task_id (set_progress (sd_progress sd)) ;;;
          if (sd_status_code sd =? 40)%Z then
            download_results w task_id webodm_task_id
          else if (sd_status_code sd =? 30)%Z then
            set_item task_id (set_status failed) ;;;
            set_item task_id (set_message "Processing failed")
          else if (sd_status_code sd =? 50)%Z then
            set_item task_id (set_status failed) ;;;
            set_item task_id (set_message "Task canceled")
          else
            time_sleep 10 ;;; poll_loop w fuel' task_id webodm_task_id
      end
  end.

(** The body of the [try] in [process_task]. *)
Definition process_task_body (w : world) (fuel : nat) (task_id archive_path : string)
  : M unit :=
  set_item task_id (set_status extracting) ;;;
  set_item task_id (set_message "Extracting images...") ;;;
  let extract_dir := Py.path_join TEMP_DIR task_id in
  os_makedirs extract_dir ;;;
  extract_archive w archive_path extract_dir ;;;
  walk <- os_walk extract_dir ;;
  let image_folder := find_image_folder walk extract_dir in
  names <- os_listdir image_folder ;;
  let image_count := length (List.filter is_image names) in
  set_item task_id (set_status uploading) ;;;
  set_item task_id (set_message ("Uploading " +:+ pretty image_count +:+ " images...")) ;;;
  r <- upload_images_to_webodm w image_folder ("Task-" +:+ task_id) ;;
  let webodm_task_id := fst r in
  let error := snd r in
  if Py.truthy error then
    set_item task_id (set_status failed) ;;;
    set_item task_id (set_message (default "" error))
  else
    set_item task_id (set_webodm_task_id webodm_task_id) ;;;
    set_item task_id (set_status processing) ;;;
    set_item task_id (set_message "Processing orthomosaic...") ;;;
    poll_loop w fuel task_id webodm_task_id ;;;
    shutil_rmtree extract_dir ;;;
    os_remove archive_path.

(** Background task processor. *)
Definition process_task (w : world) (fuel : nat) (task_id archive_path : string) : M unit :=
  try_except (process_task_body w fuel task_id archive_path)
    (fun e =>
       set_item task_id (set_status failed) ;;;
       set_item task_id (set_message (str e))).

(** ** src/schemas/__init__.py *)

Module TaskResponse.
Record t : Type := Make { task_id : string; status : string; message : string }.
End TaskResponse.

Module TaskStatus.
Record t : Type := Make {
  task_id : string;
  status : string;
  progress : Z;
  message : string;
  download_url : option string
}.
End TaskStatus.

(** ** routes.py *)

Definition UPLOAD_DIR : string := "uploads".

(** The uploaded file: its name and its bytes. *)
Record UploadFile : Type := { uf_filename : string; uf_bytes : string }.

(** [open(path, "wb")] followed by [shutil.copyfileobj]. *)
Definition write_file (path bytes : string) : M unit :=
  fun s => Ret tt (with_files (<[path := bytes]> (files s)) s).

Definition add_task (task_id archive_path : string) : M unit :=
  fun s => Ret tt (with_background (background s ++ [(task_id, archive_path)]) s).

(** [POST /upload]. *)
Definition upload_images (w : world) (file : UploadFile) : M TaskResponse.t :=
  if negb (Py.endswith_any (Py.lower (uf_filename file)) [".zip"; ".rar"]) then
    raise (HTTPException 400 "Only ZIP and RAR files are supported")
  else
    task_id <- uuid_lib_uuid4 w ;;
    let file_extension := Py.last_item (Py.split "." (Py.lower (uf_filename file))) in
    let archive_path := Py.path_join UPLOAD_DIR (task_id +:+ "." +:+ file_extension) in
    write_file archive_path (uf_bytes file) ;;;
    now <- time_time ;;
    new_item task_id (Task task_id queued 0 "Task queued" (uf_filename file) now None None) ;;;
    add_task task_id archive_path ;;;
    ret (TaskResponse.Make task_id "queued" "Task created. Check /status/{task_id}").

(** [GET /status/{task_id}]. *)
Definition get_task_status (s : state) (task_id : string) : exn + TaskStatus.t :=
  match tasks s !! task_id with
  | None => inl (HTTPException 404 "Task not found")
  | Some task =>
      let download_url :=
        if decide (status task = completed) then Some ("/download/" +:+ task_id) else None in
      inr (TaskStatus.Make task_id (status_str (status task)) (progress task)
             (message task) download_url)
  end.

Record FileResponse : Type := {
  fr_path : string;
  fr_media_type : string;
  fr_filename : string
}.

(** [GET /download/{task_id}]. *)
Definition download_result (s : state) (task_id : string) : exn + FileResponse :=
  match tasks s !! task_id with
  | None => inl (HTTPException 404 "Task not found")
  | Some task =>
      if negb (bool_decide (status task = completed)) then
        inl (HTTPException 400 ("Status: " +:+ status_str (status task)))
      else
        match output_file task with
        | None => inl (HTTPException 404 "File not found")
        | Some output_file =>
            if (String.eqb output_file "" || negb (os_path_exists s output_file))%bool then
              inl (HTTPException 404 "File not found")
            else
              inr {| fr_path := output_file;
                     fr_media_type := "application/zip";
                     fr_filename := "orthomosaic_" +:+ task_id +:+ ".zip" |}
        end
  end.

(** The response of [GET /tasks]. *)
Record TaskList : Type := { total : nat; tl_tasks : list task }.

Definition list_tasks (s : state) : TaskList :=
  {| total := size (tasks s); tl_tasks := snd <$> map_to_list (tasks s) |}.

(** The background tasks of a request run after its response, in order. *)
Fixpoint run_jobs (w : world) (fuel : nat) (jobs : list (string * string)) : M unit :=
  match jobs with
  | [] => ret tt
  | (task_id, archive_path) :: rest =>
      process_task w fuel task_id archive_path ;;; run_jobs w fuel rest
  end.

Definition run_background (w : world) (fuel : nat) : M unit :=
  fun s => run_jobs w fuel (background s) (with_background [] s).

(** One request to [POST /upload] and its background work; every request
    has a [BackgroundTasks] object of its own. *)
Definition submit (w : world) (fuel : nat) (file : UploadFile) : M TaskResponse.t :=
  fun s =>
    (response <- upload_images w file ;;
     run_background w fuel ;;;
     ret response) (with_background [] s).

(** [if os.path.exists(p): os.remove(p)]. *)
Definition remove_if_exists (p : string) : M unit :=
  fun s => if os_path_exists s p then os_remove p s else Ret tt s.

(** [del tasks[task_id]]. *)
Definition del_item (task_id : string) : M unit :=
  fun s =>
    match tasks s !! task_id with
    | None => Raise (KeyError task_id) s
    | Some _ => Ret tt (with_tasks (delete task_id (tasks s)) (log s) s)
    end.

(** The loop [for ext in ['zip', 'rar']] of [delete_task]. *)
Fixpoint remove_uploads (task_id : string) (exts : list string) : M unit :=
  match exts with
  | [] => ret tt
  | ext :: rest =>
      let upload_file := Py.path_join UPLOAD_DIR (task_id +:+ "." +:+ ext) in
      remove_if_exists upload_file ;;;
      remove_uploads task_id rest
  end.

(** [DELETE /task/{task_id}]; the response is the value of its key
    ['message']. *)
Definition delete_task (task_id : string) : M string :=
  fun s =>
    match tasks s !! task_id with
    | None => Raise (HTTPException 404 "Task not found") s
    | Some task =>
        ((match output_file task with
          | Some output_file => remove_if_exists output_file
          | None => ret tt
          end) ;;;
         remove_uploads task_id ["zip"; "rar"] ;;;
         del_item task_id ;;;
         ret "Task deleted") s
    end.

(** Nothing below a directory of [dirs] lies at the path [p], and [p] is no
    directory: [p] exists only as a regular file of [files], if at all. *)
Definition off_tree (s : state) (p : string) : bool :=
  (negb (bool_decide (is_Some (resolve_dir s p))) &&
   negb (existsb (fun d => existsb (fun e => is_file e &&
                             String.eqb (Py.path_join (fst d) (entry_name e)) p) (snd d))
                 (all_dirs s)))%bool.

(** ** Observations *)

(** Whether the polling loop is left on this answer: the three codes the
    loop interprets. *)
Definition terminal_code (code : Z) : bool :=
  ((code =? 40) || (code =? 30) || (code =? 50))%Z.

(** Whether the polling loop is left on what [check_webodm_task_status]
    returned: never on [None]. *)
Definition leaves_loop (answer : option status_data) : bool :=
  match answer with
  | Some sd => terminal_code (sd_status_code sd)
  | None => false
  end.

(** The records written to the registry between [s] and [s'], oldest
    first: what a reader of [tasks] could see during a run from [s] to [s']. *)
Definition observed (s s' : state) : list (string * task) :=
  rev (take (length (log s') - length (log s)) (log s')).

(** ** The traces of a run *)

(** A sequence of registry writes for one task, oldest first. *)
Definition writes (task_id : string) (ts : list task) (s : state) : state :=
  fold_left (fun s t => write task_id t s) ts s.

(** [s'] has the registry and the history of [s] after the writes [ts]. *)
Definition wrote (task_id : string) (ts : list task) (s s' : state) : Prop :=
  tasks s' = tasks (writes task_id ts s) /\ log s' = log (writes task_id ts s).

(** The current record after the writes [ts] on top of [t]. *)
Definition cur (t : task) (ts : list task) : task := List.last ts t.

(** A status write followed by a message write. *)
Definition mark (st : status_t) (msg : string) (t : task) : list task :=
  [set_status st t; set_message msg (set_status st t)].

(** How the polling loop was left, if it was. *)
Inductive loop_end : Type :=
  | StillPolling | RemoteFailed | RemoteCanceled | DownloadFailed | Downloaded.

(** How a run of [process_task]'s body went: an exception before the
    status [uploading], an exception while uploading, an error returned by
    the upload, or the polling loop entered, with the progress values it
    wrote, the way it was left and the exception of the cleanup, if any. *)
Inductive run_end : Type :=
  | CrashedExtracting (e : exn)
  | CrashedUploading (image_count : nat) (e : exn)
  | UploadRejected (image_count : nat) (error : string)
  | Looped (image_count : nat) (webodm_task_id : option string) (ps : list Z)
      (le : loop_end) (cleanup : option exn).

Definition loop_end_trace (task_id : string) (le : loop_end) (q : task) : list task :=
  let d := mark downloading "Downloading results..." q in
  match le with
  | StillPolling => []
  | RemoteFailed => mark failed "Processing failed" q
  | RemoteCanceled => mark failed "Task canceled" q
  | DownloadFailed => d ++ mark failed "Download failed" (cur q d)
  | Downloaded =>
      let c := mark completed "Complete!" (cur q d) in
      let output_file := Py.path_join OUTPUT_DIR (task_id +:+ ".zip") in
      d ++ c ++ [set_output_file output_file (cur q c);
                 set_progress 100 (set_output_file output_file (cur q c))]
  end.

Definition loop_trace (task_id : string) (ps : list Z) (le : loop_end) (t : task)
  : list task :=
  let progress_writes := (fun p => set_progress p t) <$> ps in
  progress_writes ++ loop_end_trace task_id le (cur t progress_writes).

Definition uploading_message (image_count : nat) : string :=
  "Uploading " +:+ pretty image_count +:+ " images...".

(** The records written before the polling loop is entered, and the
    record the loop starts from. *)
Definition loop_prefix (n : nat) (wid : option string) (t0 : task) : list task :=
  let e := mark extracting "Extracting images..." t0 in
  let u := mark uploading (uploading_message n) (cur t0 e) in
  let p1 := set_webodm_task_id wid (cur t0 u) in
  e ++ u ++ p1 :: mark processing "Processing orthomosaic..." p1.

Definition loop_start (n : nat) (wid : option string) (t0 : task) : task :=
  cur t0 (loop_prefix n wid t0).

(** The records the body of [process_task] writes, oldest first. *)
Definition body_trace (task_id : string) (t0 : task) (r : run_end) : list task :=
  let e := mark extracting "Extracting images..." t0 in
  match r with
  | CrashedExtracting _ => e
  | CrashedUploading n _ => e ++ mark uploading (uploading_message n) (cur t0 e)
  | UploadRejected n error =>
      let u := mark uploading (uploading_message n) (cur t0 e) in
      e ++ u ++ mark failed error (cur t0 u)
  | Looped n wid ps le _ =>
      loop_prefix n wid t0 ++ loop_trace task_id ps le (loop_start n wid t0)
  end.

(** The exception that leaves the body, if one does. *)
Definition body_exn (r : run_end) : option exn :=
  match r with
  | CrashedExtracting e | CrashedUploading _ e => Some e
  | UploadRejected _ _ => None
  | Looped _ _ _ _ cleanup => cleanup
  end.

(** The records [process_task] writes: those of the body, then those of
    the top-level handler. *)
Definition run_trace (task_id : string) (t0 : task) (r : run_end) : list task :=
  let b := body_trace task_id t0 r in
  match body_exn r with
  | Some e => b ++ mark failed (str e) (cur t0 b)
  | None => b
  end.

(** The status a run ends with. *)
Definition end_status (r : run_end) : status_t :=
  match r with
  | CrashedExtracting _ | CrashedUploading _ _ | UploadRejected _ _ => failed
  | Looped _ _ _ le cleanup =>
      match cleanup, le with
      | Some _, _ => failed
      | None, StillPolling => processing
      | None, Downloaded => completed
      | None, _ => failed
      end
  end.

Definition still_polling (r : run_end) : bool :=
  match r with
  | Looped _ _ _ StillPolling None => true
  | _ => false
  end.

(** What a run from [s] leaves on disk in [s'], by the way it went: a run
    that left the polling loop has removed the extraction directory and the
    archive, and its cleanup raises only when the archive was missing; any
    other run has deleted no file. *)
Definition disk_after (task_id archive_path : string) (s s' : state) (r : run_end) : Prop :=
  match r with
  | Looped _ _ _ StillPolling c => c = None /\ files s' = files s
  | Looped _ _ _ le c =>
      dirs s' !! Py.path_join TEMP_DIR task_id = None
      /\ files s' !! archive_path = None
      /\ (forall p, p <> archive_path ->
                    p <> Py.path_join OUTPUT_DIR (task_id +:+ ".zip") ->
                    files s' !! p = files s !! p)
      /\ (le = Downloaded ->
          archive_path <> Py.path_join OUTPUT_DIR (task_id +:+ ".zip") ->
          is_Some (files s' !! Py.path_join OUTPUT_DIR (task_id +:+ ".zip")))
      /\ (is_Some (files s !! archive_path) -> c = None)
  | _ => files s' = files s
  end.

(** The call of the polling loop in a run that entered it: made after as
    many status requests as [s] has seen, and left as the run tells. *)
Definition loop_of (w : world) (fuel : nat) (task_id : string) (s : state) (r : run_end)
  : Prop :=
  match r with
  | Looped _ wid _ le _ =>
      exists s_loop s_end,
        polled s_loop = polled s
        /\ is_Some (tasks s_loop !! task_id)
        /\ poll_loop w fuel task_id wid s_loop
           = match le with StillPolling => Polling s_end | _ => Ret tt s_end end
  | _ => True
  end.

(** ** The specification's words *)

(** [name] ends, case-insensitively, in [ext]. *)
Definition has_extension (name ext : string) : Prop :=
  exists stem suffix, name = stem +:+ suffix /\ Py.lower suffix = ext.

(** The extraction directory of the task and its archive are deleted. *)
Definition cleaned_up (task_id archive_path : string) (s : state) : Prop :=
  dirs s !! Py.path_join TEMP_DIR task_id = None /\ files s !! archive_path = None.

(** Along a sequence of records, progress never decreases from one
    [processing] record to the next. *)
Definition never_decreases_while_processing (seen : list task) : Prop :=
  forall (i : nat) (t1 t2 : task),
    seen !! i = Some t1 -> seen !! S i = Some t2 ->
    status t1 = processing -> status t2 = processing ->
    (progress t1 <= progress t2)%Z.

(** The output path is present if and only if the status is [completed]. *)
Definition output_iff_completed (t : task) : Prop :=
  is_Some (output_file t) <-> status t = completed.

(** Breadth-first from the extraction root: the first directory, level by
    level, that holds at least one image file. *)
Fixpoint bfs_image_dir (depth : nat) (level : list (string * list entry)) : option string :=
  match List.find (fun d => existsb (fun e => is_file e && is_image (entry_name e)) (snd d)) level with
  | Some d => Some (fst d)
  | None =>
      match depth with
      | O => None
      | S depth' =>
          bfs_image_dir depth'
            (flat_map (fun d =>
               flat_map (fun e => match e with
                                  | Dir n children => [(Py.path_join (fst d) n, children)]
                                  | File _ => []
                                  end) (snd d)) level)
      end
  end.

(** ** Scenarios *)

Definition empty_state : state := State ∅ ∅ ∅ 0 0 0 [] [].

(** A world whose archives decode by name, whose remote service accepts the
    upload and answers the status requests with [polls] in turn (then with
    the running code 20), and whose download behaves as [dl]. *)
Definition demo_world (polls : list get_outcome) (dl : download_outcome) : world :=
  {| uuid4 := fun n => "task-" +:+ pretty n;
     zip_extractall := fun bytes below =>
       if String.eqb bytes "flat" then ZipOk [File "a.jpg"; File "b.JPG"; File "notes.txt"]
       else if String.eqb bytes "nested" then ZipOk [Dir "photos" [File "a.jpg"; File "b.jpg"]]
       else if String.eqb bytes "odd" then ZipOk [Dir "frame.jpg" []; File "a.jpg"]
       else ZipRaise (BadZipFile "File is not a zip file");
     unrar := None;
     guess_type := fun _ => None;
     requests_post := fun _ _ => PostResp 200 (PostJson (Some "remote-1"));
     requests_get_info := fun _ n =>
       nth n polls (GetResp 200 (InfoJson (Some 20%Z) (Some 0%Z)));
     requests_get_download := fun _ => dl |}.

Definition remote_running (p : Z) : get_outcome := GetResp 200 (InfoJson (Some 20%Z) (Some p)).
Definition remote_completed (p : Z) : get_outcome := GetResp 200 (InfoJson (Some 40%Z) (Some p)).
Definition good_download : download_outcome := DlResp 200 ["PK"; "data"] false.

Definition photos_zip (bytes : string) : UploadFile :=
  {| uf_filename := "photos.zip"; uf_bytes := bytes |}.

(** [photos.zip] submitted to an empty server. *)
Definition demo_submit (polls : list get_outcome) (dl : download_outcome) (fuel : nat)
    (bytes : string) : outcome TaskResponse.t :=
  submit (demo_world polls dl) fuel (photos_zip bytes) empty_state.

(** The server after [photos.zip] was uploaded and before its background
    task runs. *)
Definition demo_uploaded (bytes : string) : state :=
  final_state (upload_images (demo_world [] good_download) (photos_zip bytes) empty_state).

(** A world like [demo_world] whose remote service answers the upload with
    a 200 and a JSON body without [uuid], and knows no task afterwards. *)
Definition no_uuid_world : world :=
  {| uuid4 := uuid4 (demo_world [] DlRaise);
     zip_extractall := zip_extractall (demo_world [] DlRaise);
     unrar := None;
     guess_type := fun _ => None;
     requests_post := fun _ _ => PostResp 200 (PostJson None);
     requests_get_info := fun _ _ => GetResp 404 InfoBadJson;
     requests_get_download := fun _ => DlRaise |}.

(** * Properties *)

(** ** Strings *)

Lemma lower_app (a b : string) : Py.lower (a +:+ b) = Py.lower a +:+ Py.lower b.
Proof. induction a as [|c a IH]; simpl; [reflexivity | now rewrite IH]. Qed.

Lemma endswith_nil (suffix : string) :
  Py.endswith "" suffix = (String.eqb "" suffix || false)%bool.
Proof. reflexivity. Qed.

Lemma endswith_cons (c : ascii) (s suffix : string) :
  Py.endswith (String c s) suffix
  = (String.eqb (String c s) suffix || Py.endswith s suffix)%bool.
Proof. reflexivity. Qed.

Lemma endswith_suffix (s suffix : string) :
  Py.endswith s suffix = true <-> exists stem, s = stem +:+ suffix.
Proof.
  induction s as [|c s IH].
  - rewrite endswith_nil, orb_false_r, String.eqb_eq. split.
    + intros <-. now exists "".
    + intros [[|c stem] H]; simpl in H; [now subst | discriminate].
  - rewrite endswith_cons, orb_true_iff, String.eqb_eq, IH. split.
    + intros [<- | [stem ->]]; [now exists "" | now exists (String c stem)].
    + intros [[|c' stem] H]; simpl in H; [now left | right].
      injection H as _ ->. now exists stem.
Qed.

(** The test of the code, [name.lower().endswith(ext)], is the
    case-insensitive test on the extension. *)
Lemma endswith_lower (name ext : string) :
  has_extension name ext -> Py.endswith (Py.lower name) ext = true.
Proof.
  intros (stem & suffix & -> & <-). apply endswith_suffix.
  exists (Py.lower stem). apply lower_app.
Qed.

Lemma lower_split (name a b : string) :
  Py.lower name = a +:+ b ->
  exists stem suffix, name = stem +:+ suffix /\ Py.lower suffix = b.
Proof.
  revert name. induction a as [|c a IH]; intros name H; simpl in H.
  - now exists "", name.
  - destruct name as [|c' name]; [discriminate |]. simpl in H.
    injection H as _ H. destruct (IH _ H) as (stem & suffix & -> & <-).
    now exists (String c' stem), suffix.
Qed.

Lemma endswith_lower_iff (name ext : string) :
  Py.endswith (Py.lower name) ext = true <-> has_extension name ext.
Proof.
  split; [| apply endswith_lower].
  intros [stem H]%endswith_suffix. eapply lower_split, H.
Qed.

(** ** Submission (routes.py, upload_images) *)

(** C8. A submission whose filename does not end, case-insensitively, in
    [.zip] or [.rar] raises the 400 error in the state it found: no
    identifier has been drawn, no file written, no record created and no
    background task queued; the same holds for the whole request with its
    background work. *)
Theorem unsupported_extension_rejected (w : world) (fuel : nat) (file : UploadFile)
    (s : state) :
  ~ has_extension (uf_filename file) ".zip" ->
  ~ has_extension (uf_filename file) ".rar" ->
  upload_images w file s
    = Raise (HTTPException 400 "Only ZIP and RAR files are supported") s
  /\ let r := submit w fuel file s in
     (exists e, r = Raise e (final_state r))
     /\ drawn (final_state r) = drawn s
     /\ files (final_state r) = files s
     /\ tasks (final_state r) = tasks s
     /\ log (final_state r) = log s.
Proof.
  intros Hzip Hrar.
  assert (Hno : Py.endswith_any (Py.lower (uf_filename file)) [".zip"; ".rar"] = false).
  { unfold Py.endswith_any. simpl. rewrite orb_false_r. apply orb_false_iff.
    split; apply not_true_is_false; intros H%endswith_lower_iff; tauto. }
  unfold submit, upload_images, bind. rewrite Hno. simpl.
  split; [reflexivity |]. repeat split. now eexists.
Qed.

Lemma unsupported_extension_rejected_witness :
  upload_images (demo_world [] good_download) {| uf_filename := "photos.tar"; uf_bytes := "x" |}
    empty_state
  = Raise (HTTPException 400 "Only ZIP and RAR files are supported") empty_state.
Proof.
  refine (proj1 (unsupported_extension_rejected (demo_world [] good_download) 0
            {| uf_filename := "photos.tar"; uf_bytes := "x" |} empty_state _ _)).
  - intros H%endswith_lower. vm_compute in H. discriminate.
  - intros H%endswith_lower. vm_compute in H. discriminate.
Defined.

(** An accepted submission registers a fresh record ([queued], progress
    0, no remote identifier, no output file), leaves the archive on disk and
    queues [process_task] on that record and that archive. *)
Lemma upload_images_accepted (w : world) (file : UploadFile) (s s' : state)
    (response : TaskResponse.t) :
  upload_images w file s = Ret response s' ->
  exists archive_path,
    tasks s' !! TaskResponse.task_id response
    = Some (Task (TaskResponse.task_id response) queued 0 "Task queued"
              (uf_filename file) (clock s) None None)
    /\ files s' !! archive_path = Some (uf_bytes file)
    /\ background s' = background s ++ [(TaskResponse.task_id response, archive_path)]
    /\ observed s s' = [(TaskResponse.task_id response,
                         Task (TaskResponse.task_id response) queued 0 "Task queued"
                           (uf_filename file) (clock s) None None)].
Proof.
  unfold upload_images. destruct (negb _); [discriminate |].
  unfold bind, uuid_lib_uuid4, write_file, time_time, new_item, add_task, ret.
  intros [= <- <-]. eexists. cbn.
  split; [apply lookup_insert_eq |]. split; [apply lookup_insert_eq |].
  split; [reflexivity |].
  unfold observed. cbn [log]. cbn [length].
  replace (S (length (log s)) - length (log s)) with 1 by lia. reflexivity.
Qed.

(** ** Download (routes.py, download_result) *)

(** C9. The four answers of a download request: unknown id, not found; a
    task that is not [completed], an error naming its status; a [completed]
    task whose recorded output file is not on disk (or that records none),
    not found; otherwise the file, under the name
    [orthomosaic_<task_id>.zip]. *)
Theorem download_result_cases (s : state) (task_id : string) :
  (tasks s !! task_id = None ->
   download_result s task_id = inl (HTTPException 404 "Task not found"))
  /\ (forall t, tasks s !! task_id = Some t -> status t <> completed ->
      download_result s task_id
      = inl (HTTPException 400 ("Status: " +:+ status_str (status t))))
  /\ (forall t, tasks s !! task_id = Some t -> status t = completed ->
      (forall out, output_file t = Some out -> os_path_exists s out = false) ->
      download_result s task_id = inl (HTTPException 404 "File not found"))
  /\ (forall t out, tasks s !! task_id = Some t -> status t = completed ->
      output_file t = Some out -> os_path_exists s out = true ->
      download_result s task_id
      = inr {| fr_path := out;
               fr_media_type := "application/zip";
               fr_filename := "orthomosaic_" +:+ task_id +:+ ".zip" |}).
Proof.
  unfold download_result. repeat split.
  - now intros ->.
  - intros t -> Hst. now rewrite bool_decide_eq_false_2.
  - intros t -> Hst Hout. rewrite bool_decide_eq_true_2 by assumption. simpl.
    destruct (output_file t) as [out|]; [| reflexivity].
    rewrite (Hout out eq_refl). simpl. now rewrite orb_true_r.
  - intros t out -> Hst -> Hex. rewrite bool_decide_eq_true_2 by assumption. simpl.
    rewrite Hex. unfold os_path_exists in Hex.
    destruct (String.eqb out ""); [discriminate | reflexivity].
Qed.

Lemma download_result_cases_witness :
  download_result (final_state (demo_submit [remote_completed 100] good_download 2 "flat"))
    "task-0"
  = inr {| fr_path := "outputs/task-0.zip";
           fr_media_type := "application/zip";
           fr_filename := "orthomosaic_task-0.zip" |}.
Proof.
  refine (proj2 (proj2 (proj2 (download_result_cases
            (final_state (demo_submit [remote_completed 100] good_download 2 "flat"))
            "task-0")))
            (Task "task-0" completed 100 "Complete!" "photos.zip" 0
               (Some (Some "remote-1")) (Some "outputs/task-0.zip"))
            "outputs/task-0.zip" _ _ _ _).
  - vm_compute. reflexivity.
  - reflexivity.
  - reflexivity.
  - vm_compute. reflexivity.
Defined.

(** ** Registry writes *)

Lemma set_item_Some (task_id : string) (upd : task -> task) (s : state) (t : task) :
  tasks s !! task_id = Some t ->
  set_item task_id upd s = Ret tt (write task_id (upd t) s).
Proof. unfold set_item. now intros ->. Qed.

Lemma tasks_write (task_id : string) (t : task) (s : state) :
  tasks (write task_id t s) !! task_id = Some t.
Proof. apply lookup_insert_eq. Qed.

Lemma writes_app (task_id : string) (a b : list task) (s : state) :
  writes task_id (a ++ b) s = writes task_id b (writes task_id a s).
Proof. apply fold_left_app. Qed.

Lemma log_writes (task_id : string) (ts : list task) (s : state) :
  log (writes task_id ts s) = rev ((fun t => (task_id, t)) <$> ts) ++ log s.
Proof.
  revert s. induction ts as [|t ts IH]; intros s; [reflexivity |].
  change (writes task_id (t :: ts) s) with (writes task_id ts (write task_id t s)).
  rewrite IH. simpl. now rewrite <- app_assoc.
Qed.

Lemma cur_cons (t x : task) (ts : list task) : cur t (x :: ts) = cur x ts.
Proof.
  unfold cur. revert t x. induction ts as [|y ts IH]; intros t x; [reflexivity |].
  change (List.last (x :: y :: ts) t) with (List.last (y :: ts) t).
  now rewrite !IH.
Qed.

Lemma cur_app (t : task) (a b : list task) : cur t (a ++ b) = cur (cur t a) b.
Proof.
  revert t. induction a as [|x a IH]; intros t; [reflexivity |].
  simpl app. now rewrite !cur_cons.
Qed.

Lemma cur_elem (t : task) (ts : list task) : ts <> [] -> cur t ts ∈ ts.
Proof.
  revert t. induction ts as [|x ts IH]; intros t Hne; [contradiction |].
  rewrite cur_cons. destruct ts as [|y ts]; [apply list_elem_of_here |].
  apply list_elem_of_further, IH. discriminate.
Qed.

Lemma tasks_writes_cur (task_id : string) (ts : list task) (s : state) (t : task) :
  tasks s !! task_id = Some t ->
  tasks (writes task_id ts s) !! task_id = Some (cur t ts).
Proof.
  revert s t. induction ts as [|x ts IH]; intros s t H; [exact H |].
  rewrite cur_cons. apply IH, tasks_write.
Qed.

Lemma writes_ext (task_id : string) (ts : list task) (s1 s2 : state) :
  tasks s1 = tasks s2 -> log s1 = log s2 ->
  tasks (writes task_id ts s1) = tasks (writes task_id ts s2)
  /\ log (writes task_id ts s1) = log (writes task_id ts s2).
Proof.
  revert s1 s2. induction ts as [|x ts IH]; intros s1 s2 Ht Hl; [now split |].
  apply IH; simpl; congruence.
Qed.

Lemma wrote_writes (task_id : string) (ts : list task) (s : state) :
  wrote task_id ts s (writes task_id ts s).
Proof. now split. Qed.

Lemma wrote_trans (task_id : string) (a b : list task) (s s1 s2 : state) :
  wrote task_id a s s1 -> wrote task_id b s1 s2 -> wrote task_id (a ++ b) s s2.
Proof.
  intros [Ht1 Hl1] [Ht2 Hl2]. unfold wrote. rewrite writes_app, Ht2, Hl2.
  now apply writes_ext.
Qed.

Lemma wrote_cons (task_id : string) (x : task) (ts : list task) (s s' : state) :
  wrote task_id ts (write task_id x s) s' -> wrote task_id (x :: ts) s s'.
Proof. exact (fun H => H). Qed.

Lemma wrote_start (task_id : string) (ts : list task) (s1 s2 s' : state) :
  tasks s1 = tasks s2 -> log s1 = log s2 ->
  wrote task_id ts s1 s' -> wrote task_id ts s2 s'.
Proof.
  intros Ht Hl [H1 H2]. unfold wrote. rewrite H1, H2. now apply writes_ext.
Qed.

Lemma wrote_cur (task_id : string) (ts : list task) (s s' : state) (t : task) :
  wrote task_id ts s s' -> tasks s !! task_id = Some t ->
  tasks s' !! task_id = Some (cur t ts).
Proof. intros [-> _]. apply tasks_writes_cur. Qed.

Lemma wrote_log (task_id : string) (ts : list task) (s s' : state) :
  wrote task_id ts s s' ->
  log s' = rev ((fun t => (task_id, t)) <$> ts) ++ log s.
Proof. intros [_ ->]. apply log_writes. Qed.

Lemma wrote_observed (task_id : string) (ts : list task) (s s' : state) :
  wrote task_id ts s s' -> observed s s' = (fun t => (task_id, t)) <$> ts.
Proof.
  intros H%wrote_log. unfold observed. rewrite H, length_app.
  replace (length (rev ((fun t => (task_id, t)) <$> ts)) + length (log s) - length (log s))
    with (length (rev ((fun t => (task_id, t)) <$> ts))) by lia.
  rewrite take_app_length. apply rev_involutive.
Qed.

Lemma observed_elem (task_id : string) (ts : list task) (t : task) :
  (task_id, t) ∈ (fun x => (task_id, x)) <$> ts -> t ∈ ts.
Proof. intros (x & [= ->] & Hx)%list_elem_of_fmap. exact Hx. Qed.

Lemma with_files_id (s : state) : with_files (files s) s = s.
Proof. now destruct s. Qed.

Lemma with_dirs_id (s : state) : with_dirs (dirs s) s = s.
Proof. now destruct s. Qed.

Lemma bind_Ret {A B} (m : M A) (k : A -> M B) (s s' : state) (a : A) :
  m s = Ret a s' -> bind m k s = k a s'.
Proof. unfold bind. now intros ->. Qed.

Lemma bind_Raise {A B} (m : M A) (k : A -> M B) (s s' : state) (e : exn) :
  m s = Raise e s' -> bind m k s = Raise e s'.
Proof. unfold bind. now intros ->. Qed.

Lemma bind_Polling {A B} (m : M A) (k : A -> M B) (s s' : state) :
  m s = Polling s' -> bind m k s = Polling s'.
Proof. unfold bind. now intros ->. Qed.

Ltac conjs := repeat match goal with |- _ /\ _ => split end.

Ltac registry_write :=
  erewrite set_item_Some by (simpl; first [eassumption | apply lookup_insert_eq]).

Ltac step_write :=
  erewrite bind_Ret
    by (apply set_item_Some; simpl; first [eassumption | apply lookup_insert_eq]);
  cbv beta.

Ltac trace_elem H :=
  repeat first
    [ apply elem_of_app in H as [H | H]
    | apply elem_of_cons in H as [-> | H]
    | apply elem_of_nil in H; destruct H
    | apply list_elem_of_fmap in H as (? & -> & _) ].

(** ** The polling loop *)

Section PollingLoop.

Variable w : world.
Variable task_id : string.
Variable wid : option string.

Lemma download_from_webodm_run (out : string) (s : state) :
  exists (ok : bool) (fs : gmap string string),
    download_from_webodm w wid out s = Ret ok (with_files fs s)
    /\ (fs = files s \/ exists bytes, fs = <[out := bytes]> (files s))
    /\ (ok = true -> is_Some (fs !! out)).
Proof.
  unfold download_from_webodm.
  destruct (requests_get_download w wid) as [|code chunks broken].
  - exists false, (files s). rewrite with_files_id.
    conjs; [reflexivity | now left | discriminate].
  - destruct (code =? 200)%Z.
    + destruct (bool_decide _).
      * exists false, (files s). rewrite with_files_id.
    conjs; [reflexivity | now left | discriminate].
      * exists (negb broken), (<[out := String.concat "" chunks]> (files s)).
        conjs; [reflexivity | right; now eexists |].
        intros _. rewrite lookup_insert_eq. now eexists.
    + exists false, (files s). rewrite with_files_id.
    conjs; [reflexivity | now left | discriminate].
Qed.

Lemma download_results_run (s : state) (q : task) :
  tasks s !! task_id = Some q ->
  let out := Py.path_join OUTPUT_DIR (task_id +:+ ".zip") in
  exists (ok : bool) (s' : state),
    download_results w task_id wid s = Ret tt s'
    /\ wrote task_id (loop_end_trace task_id (if ok then Downloaded else DownloadFailed) q) s s'
    /\ dirs s' = dirs s
    /\ (files s' = files s \/ exists bytes, files s' = <[out := bytes]> (files s))
    /\ (ok = true -> is_Some (files s' !! out)).
Proof.
  intros Hq out. unfold download_results, bind.
  do 2 registry_write.
  match goal with
  | |- context [download_from_webodm w wid ?o ?s2] =>
      destruct (download_from_webodm_run o s2) as (ok & fs & -> & Hfs & Hok)
  end.
  exists ok. destruct ok.
  - do 4 registry_write. eexists. split; [reflexivity |].
    conjs; [now split | reflexivity | exact Hfs | exact Hok].
  - do 2 registry_write. eexists. split; [reflexivity |].
    conjs; [now split | reflexivity | exact Hfs | exact Hok].
Qed.

Lemma loop_trace_cons (p : Z) (ps : list Z) (le : loop_end) (t : task) :
  loop_trace task_id (p :: ps) le t
  = set_progress p t :: loop_trace task_id ps le (set_progress p t).
Proof.
  unfold loop_trace. cbn [fmap list_fmap app]. rewrite cur_cons. reflexivity.
Qed.

(** The loop writes one progress value per answer, then leaves through
    one of the three codes or is still polling when the fuel is used up; it
    touches no directory and no file but the output file. *)
Lemma poll_loop_run (fuel : nat) :
  let out := Py.path_join OUTPUT_DIR (task_id +:+ ".zip") in
  forall (s : state) (t : task),
    tasks s !! task_id = Some t ->
    exists (ps : list Z) (le : loop_end) (s' : state),
      poll_loop w fuel task_id wid s
      = match le with StillPolling => Polling s' | _ => Ret tt s' end
      /\ wrote task_id (loop_trace task_id ps le t) s s'
      /\ dirs s' = dirs s
      /\ (files s' = files s \/ exists bytes, files s' = <[out := bytes]> (files s))
      /\ (le = Downloaded -> is_Some (files s' !! out))
      /\ (le = StillPolling -> files s' = files s).
Proof.
  intros out. induction fuel as [|fuel IH]; intros s t Ht.
  - exists [], StillPolling, s. conjs; try discriminate; auto. now split.
  - cbn [poll_loop]. unfold bind at 1, check_webodm_task_status.
    destruct (parse_info _) as [sd|].
    + unfold bind at 1. registry_write.
      destruct (sd_status_code sd =? 40)%Z.
      { match goal with
        | |- context [download_results w task_id wid ?s2] =>
            destruct (download_results_run s2 (set_progress (sd_progress sd) t))
              as (ok & s' & E & Hw & Hd & Hf & Hok); [apply tasks_write |]
        end.
        exists [sd_progress sd], (if ok then Downloaded else DownloadFailed), s'.
        conjs.
        - rewrite E. now destruct ok.
        - rewrite loop_trace_cons. apply wrote_cons.
          eapply wrote_start; [| | exact Hw]; reflexivity.
        - exact Hd.
        - exact Hf.
        - destruct ok; [auto | discriminate].
        - destruct ok; discriminate. }
      destruct (sd_status_code sd =? 30)%Z.
      { unfold bind. do 2 registry_write.
        exists [sd_progress sd], RemoteFailed. eexists. split; [reflexivity |].
        conjs; try discriminate; auto. now split. }
      destruct (sd_status_code sd =? 50)%Z.
      { unfold bind. do 2 registry_write.
        exists [sd_progress sd], RemoteCanceled. eexists. split; [reflexivity |].
        conjs; try discriminate; auto. now split. }
      unfold bind at 1, time_sleep.
      match goal with
      | |- context [poll_loop w fuel task_id wid ?s2] =>
          destruct (IH s2 (set_progress (sd_progress sd) t))
            as (ps & le & s' & E & Hw & Hd & Hf & Hok & Hsame); [apply tasks_write |]
      end.
      exists (sd_progress sd :: ps), le, s'. rewrite E. conjs.
      * reflexivity.
      * rewrite loop_trace_cons. apply wrote_cons.
        eapply wrote_start; [| | exact Hw]; reflexivity.
      * exact Hd.
      * exact Hf.
      * exact Hok.
      * exact Hsame.
    + unfold bind at 1, time_sleep.
      match goal with
      | |- context [poll_loop w fuel task_id wid ?s2] =>
          destruct (IH s2 t) as (ps & le & s' & E & Hw & Hd & Hf & Hok & Hsame); [exact Ht |]
      end.
      exists ps, le, s'. rewrite E. conjs; try assumption.
      * reflexivity.
      * eapply wrote_start; [| | exact Hw]; reflexivity.
Qed.

Lemma poll_absent_forever :
  (forall n, parse_info (requests_get_info w wid n) = None) ->
  forall (k : nat) (s : state),
    exists s', poll_loop w k task_id wid s = Polling s'
               /\ tasks s' = tasks s /\ log s' = log s
               /\ clock s' = (clock s + 10 * Z.of_nat k)%Z.
Proof.
  intros Habsent. induction k as [|k IH]; intros s.
  - exists s. conjs; try reflexivity. simpl. lia.
  - cbn [poll_loop]. unfold bind at 1, check_webodm_task_status.
    rewrite Habsent. unfold bind at 1, time_sleep.
    match goal with |- context [poll_loop w k task_id wid ?s2] =>
      destruct (IH s2) as (s' & E & Ht & Hl & Hc) end.
    exists s'. conjs; [exact E | exact Ht | exact Hl |].
    rewrite Hc. cbn [clock with_clock with_polled]. lia.
Qed.

(** A cycle whose answer carries a code other than 40, 30 and 50 stores
    the reported progress, whatever the record held, and goes on. *)
Lemma poll_loop_running (fuel : nat) (s : state) (t : task) (code p : Z) :
  tasks s !! task_id = Some t ->
  parse_info (requests_get_info w wid (polled s)) = Some (StatusData code p) ->
  terminal_code code = false ->
  poll_loop w (S fuel) task_id wid s
  = poll_loop w fuel task_id wid
      (with_clock (clock s + 10)
         (write task_id (set_progress p t) (with_polled (S (polled s)) s))).
Proof.
  intros Ht Hanswer Hcode. unfold terminal_code in Hcode.
  apply orb_false_iff in Hcode as [Hcode H50].
  apply orb_false_iff in Hcode as [H40 H30].
  cbn [poll_loop]. unfold bind at 1, check_webodm_task_status. rewrite Hanswer.
  unfold bind at 1. registry_write. cbn [sd_status_code sd_progress].
  now rewrite H40, H30, H50.
Qed.

(** A cycle whose answer carries one of the three codes leaves the loop. *)
Lemma poll_loop_leaves (fuel : nat) (s : state) (t : task) (code p : Z) :
  tasks s !! task_id = Some t ->
  parse_info (requests_get_info w wid (polled s)) = Some (StatusData code p) ->
  terminal_code code = true ->
  exists s', poll_loop w (S fuel) task_id wid s = Ret tt s'.
Proof.
  intros Ht Hanswer Hcode.
  cbn [poll_loop]. unfold bind at 1, check_webodm_task_status. rewrite Hanswer.
  unfold bind at 1. registry_write. cbn [sd_status_code sd_progress].
  destruct (code =? 40)%Z eqn:H40.
  { match goal with |- context [download_results w task_id wid ?s2] =>
      destruct (download_results_run s2 (set_progress p t))
        as (ok & s' & E & _); [apply tasks_write |] end.
    now exists s'. }
  destruct (code =? 30)%Z eqn:H30.
  { unfold bind. do 2 registry_write. now eexists. }
  destruct (code =? 50)%Z eqn:H50.
  { unfold bind. do 2 registry_write. now eexists. }
  unfold terminal_code in Hcode. rewrite H40, H30, H50 in Hcode. discriminate.
Qed.

(** Once one of the next [fuel] answers carries one of the three codes,
    the loop returns. *)
Lemma poll_loop_returns :
  forall (k fuel : nat) (s : state) (t : task) (code p : Z),
    tasks s !! task_id = Some t ->
    parse_info (requests_get_info w wid (polled s + k)) = Some (StatusData code p) ->
    terminal_code code = true ->
    k < fuel ->
    exists s', poll_loop w fuel task_id wid s = Ret tt s'.
Proof.
  induction k as [|k IH]; intros fuel s t code p Ht Hanswer Hcode Hlt;
    (destruct fuel as [|fuel]; [lia |]).
  - rewrite Nat.add_0_r in Hanswer. now apply (poll_loop_leaves fuel s t code p).
  - destruct (parse_info (requests_get_info w wid (polled s))) as [[code0 p0]|] eqn:Hnow.
    + destruct (terminal_code code0) eqn:Hterm.
      { now apply (poll_loop_leaves fuel s t code0 p0). }
      rewrite (poll_loop_running fuel s t code0 p0 Ht Hnow Hterm).
      apply (IH fuel _ (set_progress p0 t) code p); [apply tasks_write | | exact Hcode | lia].
      cbn [polled with_clock write with_tasks with_polled].
      now rewrite Nat.add_succ_comm.
    + cbn [poll_loop]. unfold bind at 1, check_webodm_task_status. rewrite Hnow.
      unfold bind at 1, time_sleep.
      apply (IH fuel _ t code p); [exact Ht | | exact Hcode | lia].
      cbn [polled with_clock with_polled].
      now rewrite Nat.add_succ_comm.
Qed.

End PollingLoop.

(** ** One polling cycle (process_task, lines 172-211) *)

(** C4. One cycle of the loop, for a registered task, by the answer to the
    status request.  Absent (a transport failure and a response other than
    200 are): the registry is left as it is and the loop goes on after ten
    seconds, for as many cycles as the answers stay absent.
    Code 40: the record gets the reported progress and the status
    [downloading], and the download follows.  Codes 30 and 50: the record is
    marked [failed], with "Processing failed" or "Task canceled", and the
    loop is left.  Any other code: the record gets the reported progress,
    keeps its status, and the loop goes on after ten seconds. *)
Theorem polling_cycle (w : world) (fuel : nat) (task_id : string) (wid : option string)
    (s : state) (t : task) :
  tasks s !! task_id = Some t ->
  let answer := parse_info (requests_get_info w wid (polled s)) in
  let asked := with_polled (S (polled s)) s in
  (parse_info GetRaise = None
   /\ forall code body, code <> 200%Z -> parse_info (GetResp code body) = None)
  /\ (answer = None ->
      poll_loop w (S fuel) task_id wid s
      = poll_loop w fuel task_id wid (with_clock (clock s + 10) asked))
  /\ ((forall n, parse_info (requests_get_info w wid n) = None) ->
      forall k, exists s',
        poll_loop w k task_id wid s = Polling s'
        /\ tasks s' = tasks s /\ log s' = log s
        /\ clock s' = (clock s + 10 * Z.of_nat k)%Z)
  /\ (forall code p, answer = Some (StatusData code p) ->
      let q := set_progress p t in
      let s2 := write task_id q asked in
      (code = 40%Z ->
       poll_loop w (S fuel) task_id wid s = download_results w task_id wid s2
       /\ exists s' later,
            download_results w task_id wid s2 = Ret tt s'
            /\ observed s2 s' = (task_id, set_status downloading q) :: later)
      /\ (code = 30%Z ->
          poll_loop w (S fuel) task_id wid s
          = Ret tt (writes task_id (mark failed "Processing failed" q) s2))
      /\ (code = 50%Z ->
          poll_loop w (S fuel) task_id wid s
          = Ret tt (writes task_id (mark failed "Task canceled" q) s2))
      /\ (terminal_code code = false ->
          poll_loop w (S fuel) task_id wid s
          = poll_loop w fuel task_id wid (with_clock (clock s + 10) s2)
          /\ status q = status t)).
Proof.
  intros Ht answer asked. conjs.
  - reflexivity.
  - intros code body Hcode. cbn [parse_info].
    now rewrite (proj2 (Z.eqb_neq code 200) Hcode).
  - intros Hnone. cbn [poll_loop]. unfold bind at 1, check_webodm_task_status.
    fold answer. rewrite Hnone. reflexivity.
  - intros Habsent k. now apply poll_absent_forever.
  - intros code p Hsome q s2.
    assert (Hstep : forall k : M unit,
              bind (check_webodm_task_status w wid)
                (fun status_data =>
                   match status_data with
                   | None => k
                   | Some sd => bind (set_item task_id (set_progress (sd_progress sd)))
                                  (fun _ => if (sd_status_code sd =? 40)%Z
                                            then download_results w task_id wid
                                            else if (sd_status_code sd =? 30)%Z
                                            then bind (set_item task_id (set_status failed))
                                                   (fun _ => set_item task_id
                                                      (set_message "Processing failed"))
                                            else if (sd_status_code sd =? 50)%Z
                                            then bind (set_item task_id (set_status failed))
                                                   (fun _ => set_item task_id
                                                      (set_message "Task canceled"))
                                            else k)
                   end) s
              = (if (code =? 40)%Z then download_results w task_id wid
                 else if (code =? 30)%Z
                 then bind (set_item task_id (set_status failed))
                        (fun _ => set_item task_id (set_message "Processing failed"))
                 else if (code =? 50)%Z
                 then bind (set_item task_id (set_status failed))
                        (fun _ => set_item task_id (set_message "Task canceled"))
                 else k) s2).
    { intros k. unfold bind at 1, check_webodm_task_status. fold answer. rewrite Hsome.
      unfold bind at 1. registry_write. reflexivity. }
    cbn [poll_loop]. rewrite Hstep. conjs.
    + intros ->. split; [reflexivity |].
      destruct (download_results_run w task_id wid s2 q (tasks_write _ _ _))
        as (ok & s' & E & Hw & _).
      exists s'. rewrite (wrote_observed _ _ _ _ Hw).
      destruct ok; eexists; (split; [exact E | reflexivity]).
    + intros ->. cbn. unfold bind. do 2 registry_write. reflexivity.
    + intros ->. cbn. unfold bind. do 2 registry_write. reflexivity.
    + unfold terminal_code. intros H.
      apply orb_false_iff in H as [H H50]. apply orb_false_iff in H as [H40 H30].
      rewrite H40, H30, H50. split; reflexivity.
Qed.

Lemma polling_cycle_witness :
  poll_loop (demo_world [GetRaise; remote_completed 100] good_download) 2 "task-0"
    (Some "remote-1") (demo_uploaded "flat")
  = poll_loop (demo_world [GetRaise; remote_completed 100] good_download) 1 "task-0"
      (Some "remote-1")
      (with_clock (clock (demo_uploaded "flat") + 10)
         (with_polled (S (polled (demo_uploaded "flat"))) (demo_uploaded "flat"))).
Proof.
  refine (proj1 (proj2 (polling_cycle
                          (demo_world [GetRaise; remote_completed 100] good_download)
                          1 "task-0" (Some "remote-1") (demo_uploaded "flat")
                          (Task "task-0" queued 0 "Task queued" "photos.zip" 0 None None)
                          _)) _).
  - vm_compute. reflexivity.
  - vm_compute. reflexivity.
Defined.

(** ** The steps of a run *)

(** The disk steps before the upload change nothing but [dirs]. *)
Lemma os_makedirs_run (p : string) (s : state) :
  exists d, os_makedirs p s = Ret tt (with_dirs d s)
            \/ exists e, os_makedirs p s = Raise e (with_dirs d s).
Proof.
  unfold os_makedirs. destruct (resolve_dir s p).
  - exists (dirs s). rewrite with_dirs_id. now left.
  - destruct (is_regular_file s p).
    + exists (dirs s). rewrite with_dirs_id. right. now eexists.
    + eexists. now left.
Qed.

(** [extract_archive] returns [True] or raises one of its two messages. *)
Lemma extract_archive_run (w : world) (archive_path extract_dir : string) (s : state) :
  exists d,
    extract_archive w archive_path extract_dir s = Ret true (with_dirs d s)
    \/ exists msg,
         extract_archive w archive_path extract_dir s = Raise (PyException msg) (with_dirs d s)
         /\ (msg = unrar_not_installed
             \/ exists detail, msg = "Extraction failed: " +:+ detail).
Proof.
  unfold extract_archive, try_except, extract_archive_body.
  set (ext := Py.last_item _).
  destruct (String.eqb ext "zip").
  { destruct (files s !! archive_path) as [bytes|].
    - destruct (zip_extractall w bytes _) as [tree|e].
      + eexists. now left.
      + exists (dirs s). rewrite with_dirs_id. right.
        destruct (is_FileNotFoundError e); eexists; (split; [reflexivity |]); eauto.
    - exists (dirs s). rewrite with_dirs_id. right. simpl. eexists. split; eauto. }
  destruct (String.eqb ext "rar").
  { destruct (unrar w) as [run|].
    - destruct (returncode _ =? 0)%Z.
      + eexists. now left.
      + eexists. right. simpl. eexists. split; eauto.
    - exists (dirs s). rewrite with_dirs_id. right. simpl. eexists. split; eauto. }
  exists (dirs s). rewrite with_dirs_id. right. simpl. eexists. split; eauto.
Qed.

Lemma os_listdir_run (p : string) (s : state) :
  (exists names, os_listdir p s = Ret names s) \/ (exists e, os_listdir p s = Raise e s).
Proof.
  unfold os_listdir. destruct (resolve_dir s p); [left; now eexists |].
  destruct (is_regular_file s p); right; now eexists.
Qed.

Lemma collect_images_run (w : world) (image_folder : string) (filenames : list string) :
  forall (files_list : list (string * string)) (s : state),
    (exists l, collect_images w image_folder filenames files_list s = Ret l s)
    \/ (exists e, collect_images w image_folder filenames files_list s = Raise e s).
Proof.
  induction filenames as [|filename rest IH]; intros files_list s; simpl.
  - left. now eexists.
  - destruct (is_image filename); [| apply IH].
    unfold bind, open_rb. destruct (bool_decide _); [right; now eexists |].
    destruct (is_regular_file _ _); [apply IH | right; now eexists].
Qed.

Lemma upload_images_to_webodm_run (w : world) (image_folder task_name : string) (s : state) :
  (exists r, upload_images_to_webodm w image_folder task_name s = Ret r s)
  \/ (exists e, upload_images_to_webodm w image_folder task_name s = Raise e s).
Proof.
  unfold upload_images_to_webodm.
  destruct (os_listdir_run image_folder s) as [[names E] | [e E]].
  2: { right. exists e. now apply bind_Raise. }
  erewrite bind_Ret by exact E.
  destruct (collect_images_run w image_folder names [] s) as [[l E'] | [e E']].
  2: { right. exists e. now apply bind_Raise. }
  erewrite bind_Ret by exact E'.
  left. destruct l as [|x l]; [now eexists |].
  destruct (requests_post w _ _) as [msg | code [uuid | msg]];
    try destruct (code =? 200)%Z; now eexists.
Qed.

Lemma cleanup_run (extract_dir archive_path : string) (s : state) :
  exists (c : option exn) (s' : state),
    (shutil_rmtree extract_dir ;;; os_remove archive_path) s
    = match c with Some e => Raise e s' | None => Ret tt s' end
    /\ tasks s' = tasks s /\ log s' = log s
    /\ dirs s' !! extract_dir = None
    /\ files s' !! archive_path = None
    /\ (forall p, p <> archive_path -> files s' !! p = files s !! p)
    /\ (is_Some (files s !! archive_path) -> c = None).
Proof.
  erewrite bind_Ret by reflexivity. cbv beta. unfold os_remove, shutil_rmtree.
  cbn [files with_dirs].
  destruct (files s !! archive_path) as [bytes|] eqn:E.
  - exists None. eexists. split; [reflexivity |]. cbn.
    conjs; try reflexivity.
    + apply lookup_delete_eq.
    + apply lookup_delete_eq.
    + intros p Hp. now apply lookup_delete_ne.
  - destruct (bool_decide _);
      (eexists (Some _); eexists; split; [reflexivity |]); cbn;
      (conjs; try reflexivity).
    all: try apply lookup_delete_eq; try exact E.
    all: intros [x Hx]; discriminate.
Qed.

Lemma process_task_body_run (w : world) (fuel : nat) (task_id archive_path : string)
    (s : state) (t0 : task) :
  tasks s !! task_id = Some t0 ->
  let extract_dir := Py.path_join TEMP_DIR task_id in
  let out := Py.path_join OUTPUT_DIR (task_id +:+ ".zip") in
  exists (r : run_end) (s' : state),
    process_task_body w fuel task_id archive_path s
    = match body_exn r with
      | Some e => Raise e s'
      | None => if still_polling r then Polling s' else Ret tt s'
      end
    /\ wrote task_id (body_trace task_id t0 r) s s'
    /\ disk_after task_id archive_path s s' r
    /\ loop_of w fuel task_id s r.
Proof.
  intros Ht0 extract_dir out. unfold process_task_body.
  do 2 step_write. cbv zeta. fold extract_dir.
  match goal with |- context [bind (os_makedirs extract_dir) _ ?s2] =>
    destruct (os_makedirs_run extract_dir s2) as (d1 & [E | [e E]]) end.
  2: { exists (CrashedExtracting e). eexists. erewrite bind_Raise by exact E.
       conjs; [reflexivity | now split | reflexivity | exact I]. }
  erewrite bind_Ret by exact E. cbv beta.
  match goal with |- context [bind (extract_archive w archive_path extract_dir) _ ?s2] =>
    destruct (extract_archive_run w archive_path extract_dir s2) as (d2 & [E2 | (msg & E2 & _)]) end.
  2: { exists (CrashedExtracting (PyException msg)). eexists. erewrite bind_Raise by exact E2.
       conjs; [reflexivity | now split | reflexivity | exact I]. }
  erewrite bind_Ret by exact E2. cbv beta.
  erewrite bind_Ret by reflexivity. cbv beta.
  match goal with |- context [find_image_folder ?wk extract_dir] =>
    generalize (find_image_folder wk extract_dir); intros image_folder end.
  match goal with |- context [bind (os_listdir image_folder) _ ?s2] =>
    destruct (os_listdir_run image_folder s2) as [[names E3] | [e E3]] end.
  2: { exists (CrashedExtracting e). eexists. erewrite bind_Raise by exact E3.
       conjs; [reflexivity | now split | reflexivity | exact I]. }
  erewrite bind_Ret by exact E3. cbv beta.
  set (n := length (List.filter is_image names)).
  do 2 step_write.
  match goal with |- context [bind (upload_images_to_webodm w image_folder ?nm) _ ?s2] =>
    destruct (upload_images_to_webodm_run w image_folder nm s2) as [[[wid error] E4] | [e E4]] end.
  2: { exists (CrashedUploading n e). eexists. erewrite bind_Raise by exact E4.
       conjs; [reflexivity | now split | reflexivity | exact I]. }
  erewrite bind_Ret by exact E4. cbv beta. cbn [fst snd].
  destruct (Py.truthy error) eqn:Herr.
  { exists (UploadRejected n (default "" error)). eexists.
    step_write. registry_write.
    conjs; [reflexivity | now split | reflexivity | exact I]. }
  do 3 step_write.
  match goal with |- context [bind (poll_loop w fuel task_id wid) _ ?s2] =>
    destruct (poll_loop_run w task_id wid fuel s2 (loop_start n wid t0))
      as (ps & le & s1 & E5 & Hw & Hd & Hf & Hok & Hsame); [apply tasks_write |] end.
  assert (Hpre : forall c s', tasks s' = tasks s1 -> log s' = log s1 ->
            wrote task_id (body_trace task_id t0 (Looped n wid ps le c)) s s').
  { intros c s' Ht Hl.
    change (body_trace task_id t0 (Looped n wid ps le c))
      with (loop_prefix n wid t0 ++ loop_trace task_id ps le (loop_start n wid t0)).
    eapply wrote_trans; [apply wrote_writes |].
    destruct Hw as [Hw1 Hw2].
    eapply wrote_start;
      [| | split; [rewrite Ht; exact Hw1 | rewrite Hl; exact Hw2]]; reflexivity. }
  assert (Hloop : forall c, loop_of w fuel task_id s (Looped n wid ps le c)).
  { intros c. refine (ex_intro _ _ (ex_intro _ s1 (conj _ (conj _ E5)))).
    - reflexivity.
    - rewrite tasks_write. now eexists. }
  destruct le.
  { exists (Looped n wid ps StillPolling None), s1.
    erewrite bind_Polling by exact E5.
    conjs; [reflexivity | now apply Hpre | | apply Hloop].
    split; [reflexivity | now apply Hsame]. }
  all: erewrite bind_Ret by exact E5; cbv beta.
  all: match goal with |- context [bind (shutil_rmtree ?d) _ ?s2] =>
         destruct (cleanup_run d archive_path s2)
           as (c & s' & E6 & Ht & Hl & Hdir & Hgone & Hfr & Hc) end.
  all: assert (Hkeep : is_Some (files s !! archive_path) -> c = None)
         by (intros Hs; apply Hc; destruct Hf as [-> | [bytes ->]];
             [exact Hs | apply lookup_insert_is_Some'; now right]).
  all: assert (Hframe : forall p, p <> archive_path -> p <> out ->
                        files s' !! p = files s !! p)
         by (intros p Hp Hq; rewrite Hfr by exact Hp;
             destruct Hf as [-> | [bytes ->]];
             [reflexivity | now apply lookup_insert_ne]).
  all: match goal with E5 : _ = Ret tt _ |- _ =>
         match type of Hok with (?le = _ -> _) =>
           exists (Looped n wid ps le c), s' end end.
  all: split; [rewrite E6; now destruct c |].
  all: split; [now apply Hpre |].
  all: split; [| apply Hloop].
  all: unfold disk_after; conjs; try assumption.
  all: try discriminate.
  intros _ Hne. rewrite Hfr by (intros Heq; apply Hne; now symmetry). now apply Hok.
Qed.

Lemma body_exn_not_polling (r : run_end) (e : exn) :
  body_exn r = Some e -> still_polling r = false.
Proof. destruct r as [| | |n wid ps le c]; try reflexivity. simpl. intros ->. now destruct le. Qed.

(** A run of [process_task] on a registered task: it never lets an
    exception out, and writes the records of [run_trace]. *)
Lemma process_task_run (w : world) (fuel : nat) (task_id archive_path : string)
    (s : state) (t0 : task) :
  tasks s !! task_id = Some t0 ->
  exists (r : run_end) (s1 s' : state),
    process_task_body w fuel task_id archive_path s
    = match body_exn r with
      | Some e => Raise e s1
      | None => if still_polling r then Polling s1 else Ret tt s1
      end
    /\ process_task w fuel task_id archive_path s
       = (if still_polling r then Polling s' else Ret tt s')
    /\ wrote task_id (run_trace task_id t0 r) s s'
    /\ disk_after task_id archive_path s s' r
    /\ loop_of w fuel task_id s r.
Proof.
  intros Ht0.
  destruct (process_task_body_run w fuel task_id archive_path s t0 Ht0)
    as (r & s1 & E & Hw & Hfacts & Hloop).
  exists r, s1. unfold process_task, try_except. rewrite E.
  unfold run_trace. destruct (body_exn r) as [e|] eqn:He.
  - rewrite (body_exn_not_polling r e He).
    pose proof (wrote_cur _ _ _ _ _ Hw Ht0) as Hcur.
    unfold bind. do 2 registry_write. eexists. split; [reflexivity |].
    split; [reflexivity |]. split.
    { eapply wrote_trans; [exact Hw | now split]. }
    split; [exact Hfacts | exact Hloop].
  - exists s1. split; [reflexivity |]. split; [now destruct (still_polling r) |].
    conjs; [exact Hw | exact Hfacts | exact Hloop].
Qed.

(** For a registered task no exception leaves [process_task]: it returns,
    or is still polling. *)
Lemma process_task_no_exception (w : world) (fuel : nat) (task_id archive_path : string)
    (s : state) (t0 : task) :
  tasks s !! task_id = Some t0 ->
  exists s', process_task w fuel task_id archive_path s = Ret tt s'
             \/ process_task w fuel task_id archive_path s = Polling s'.
Proof.
  intros Ht0.
  destruct (process_task_run w fuel task_id archive_path s t0 Ht0)
    as (r & s1 & s' & _ & E & _).
  exists s'. rewrite E. destruct (still_polling r); auto.
Qed.

(** A run ends as soon as the remote service, whatever identifier it gave,
    answers one of the next [fuel] status requests with one of the three
    codes. *)
Lemma process_task_returns (w : world) (fuel : nat) (task_id archive_path : string)
    (s : state) (t0 : task) :
  tasks s !! task_id = Some t0 ->
  (forall wid, exists k code p,
      k < fuel
      /\ parse_info (requests_get_info w wid (polled s + k)) = Some (StatusData code p)
      /\ terminal_code code = true) ->
  exists s', process_task w fuel task_id archive_path s = Ret tt s'.
Proof.
  intros Ht0 Hremote.
  destruct (process_task_run w fuel task_id archive_path s t0 Ht0)
    as (r & s1 & s' & _ & E & _ & _ & Hloop).
  exists s'. rewrite E.
  destruct r as [e|n e|n err|n wid ps le c]; try reflexivity.
  destruct le; try reflexivity. destruct c; [reflexivity |]. exfalso.
  destruct Hloop as (s_loop & s_end & Hpolled & [t Ht] & Epoll).
  destruct (Hremote wid) as (k & code & p & Hlt & Hanswer & Hcode).
  rewrite <- Hpolled in Hanswer.
  destruct (poll_loop_returns w task_id wid k fuel s_loop t code p Ht Hanswer Hcode Hlt)
    as [s2 E2].
  rewrite E2 in Epoll. discriminate.
Qed.

(** ** The records of a run *)

Lemma cur_progress_writes (t : task) (ps : list Z) :
  exists p, cur t ((fun p => set_progress p t) <$> ps) = set_progress p t.
Proof.
  assert (H : forall d, cur d ((fun p => set_progress p t) <$> ps) = d
                        \/ exists p, cur d ((fun p => set_progress p t) <$> ps)
                                     = set_progress p t).
  { induction ps as [|p ps IH]; intros d; [now left |].
    right. cbn [fmap list_fmap]. rewrite cur_cons.
    destruct (IH (set_progress p t)) as [-> | H]; [now exists p | exact H]. }
  destruct (H t) as [-> | H']; [| exact H'].
  exists (progress t). now destruct t.
Qed.

(** The records of a run that entered the polling loop, with the record
    [q] the loop ended on. *)
Lemma run_trace_Looped (task_id : string) (t0 : task) (n : nat) (wid : option string)
    (ps : list Z) (le : loop_end) (c : option exn) :
  exists p,
    let q0 := loop_start n wid t0 in
    let q := set_progress p q0 in
    let handler :=
      match c with
      | Some e => mark failed (str e) (cur q (loop_end_trace task_id le q))
      | None => []
      end in
    run_trace task_id t0 (Looped n wid ps le c)
    = loop_prefix n wid t0 ++ ((fun p => set_progress p q0) <$> ps)
      ++ loop_end_trace task_id le q ++ handler
    /\ cur t0 (run_trace task_id t0 (Looped n wid ps le c))
       = cur q (loop_end_trace task_id le q ++ handler).
Proof.
  destruct (cur_progress_writes (loop_start n wid t0) ps) as [p Hp].
  exists p. cbv zeta. unfold run_trace.
  change (body_trace task_id t0 (Looped n wid ps le c))
    with (loop_prefix n wid t0
          ++ loop_trace task_id ps le (loop_start n wid t0)).
  change (body_exn (Looped n wid ps le c)) with c.
  unfold loop_trace. rewrite Hp.
  assert (Hcur : cur t0 (loop_prefix n wid t0
                         ++ ((fun p => set_progress p (loop_start n wid t0)) <$> ps)
                         ++ loop_end_trace task_id le (set_progress p (loop_start n wid t0)))
                 = cur (set_progress p (loop_start n wid t0))
                     (loop_end_trace task_id le (set_progress p (loop_start n wid t0)))).
  { rewrite !cur_app. fold (loop_start n wid t0). now rewrite Hp. }
  destruct c as [e|].
  - rewrite Hcur. split.
    + now rewrite <- !app_assoc.
    + rewrite !cur_app. fold (loop_start n wid t0). now rewrite Hp.
  - rewrite app_nil_r. split; [reflexivity | exact Hcur].
Qed.

(** The status of the last record of a run. *)
Lemma status_final (task_id : string) (t0 : task) (r : run_end) :
  status (cur t0 (run_trace task_id t0 r)) = end_status r.
Proof.
  destruct r as [e|n e|n err|n wid ps le c]; try reflexivity.
  destruct (run_trace_Looped task_id t0 n wid ps le c) as (p & _ & ->).
  destruct c, le; reflexivity.
Qed.

(** A run that ends [completed] ends with progress 100, the output file
    recorded and the remote identifier set. *)
Lemma completed_final (task_id : string) (t0 : task) (r : run_end) :
  end_status r = completed ->
  let t' := cur t0 (run_trace task_id t0 r) in
  progress t' = 100%Z
  /\ output_file t' = Some (Py.path_join OUTPUT_DIR (task_id +:+ ".zip"))
  /\ is_Some (webodm_task_id t')
  /\ exists n wid ps, r = Looped n wid ps Downloaded None.
Proof.
  destruct r as [e|n e|n err|n wid ps le c]; try discriminate.
  destruct (run_trace_Looped task_id t0 n wid ps le c) as (p & _ & E).
  cbv zeta. rewrite E.
  destruct c, le; try discriminate. intros _.
  conjs; try reflexivity; [now eexists | now exists n, wid, ps].
Qed.

Lemma run_trace_nonempty (task_id : string) (t0 : task) (r : run_end) :
  run_trace task_id t0 r <> [].
Proof.
  unfold run_trace.
  assert (Hb : body_trace task_id t0 r <> []) by (destruct r; discriminate).
  destruct (body_exn r); [| exact Hb].
  destruct (body_trace task_id t0 r); [contradiction | discriminate].
Qed.

(** Before the download has succeeded no record holds an output file;
    afterwards, unless the cleanup raised, every record is [completed]. *)
Lemma output_only_when_completed (task_id : string) (t0 : task) (r : run_end) :
  output_file t0 = None ->
  (forall n wid ps le e, r <> Looped n wid ps le (Some e)) ->
  forall t, t ∈ run_trace task_id t0 r ->
            is_Some (output_file t) -> status t = completed.
Proof.
  intros Hnone Hclean t Ht [out Hout].
  destruct r as [e|n e|n err|n wid ps le c].
  1-3: cbn in Ht; trace_elem Ht; cbn in Hout; congruence.
  destruct c as [e|]; [now destruct (Hclean n wid ps le e) |].
  destruct (run_trace_Looped task_id t0 n wid ps le None) as (p & E & _).
  rewrite E in Ht. clear E.
  destruct le; cbn in Ht; trace_elem Ht; cbn in Hout; try congruence; reflexivity.
Qed.

(** Every record with the status [processing], [downloading] or
    [completed] carries the remote identifier. *)
Lemma remote_id_once_processing (task_id : string) (t0 : task) (r : run_end) :
  forall t, t ∈ run_trace task_id t0 r ->
            status t ∈ [processing; downloading; completed] ->
            is_Some (webodm_task_id t).
Proof.
  intros t Ht Hst.
  assert (Hno : forall st, st ∈ [processing; downloading; completed] ->
                           st <> extracting /\ st <> uploading /\ st <> failed).
  { intros st H. trace_elem H; repeat split; discriminate. }
  destruct r as [e|n e|n err|n wid ps le c].
  1-3: cbn in Ht; trace_elem Ht; apply Hno in Hst; cbn in Hst; tauto.
  destruct (run_trace_Looped task_id t0 n wid ps le c) as (p & E & _).
  rewrite E in Ht. clear E.
  destruct c, le; cbn in Ht; trace_elem Ht;
    first [ now eexists | apply Hno in Hst; cbn in Hst; tauto ].
Qed.

(** What a run of [process_task] on a registered task leaves: the records
    of [run_trace] in the history, the last of them in the registry, and the
    disk as the way the run went tells. *)
Lemma process_task_observed (w : world) (fuel : nat) (task_id archive_path : string)
    (s : state) (t0 : task) :
  tasks s !! task_id = Some t0 ->
  let res := process_task w fuel task_id archive_path s in
  let s' := final_state res in
  exists (r : run_end) (s1 : state),
    process_task_body w fuel task_id archive_path s
    = match body_exn r with
      | Some e => Raise e s1
      | None => if still_polling r then Polling s1 else Ret tt s1
      end
    /\ res = (if still_polling r then Polling s' else Ret tt s')
    /\ observed s s' = (fun t => (task_id, t)) <$> run_trace task_id t0 r
    /\ tasks s' !! task_id = Some (cur t0 (run_trace task_id t0 r))
    /\ disk_after task_id archive_path s s' r
    /\ loop_of w fuel task_id s r.
Proof.
  intros Ht0 res s'.
  destruct (process_task_run w fuel task_id archive_path s t0 Ht0)
    as (r & s1 & s2 & Eb & E & Hw & Hfacts & Hloop).
  assert (Hs' : s' = s2) by (subst s' res; rewrite E; now destruct (still_polling r)).
  exists r, s1. rewrite Hs'. conjs.
  - exact Eb.
  - exact E.
  - now apply wrote_observed.
  - now apply (wrote_cur _ _ _ _ _ Hw).
  - exact Hfacts.
  - exact Hloop.
Qed.

(** ** Image discovery (process_task, lines 146-159) *)

Lemma find_in_files_root (files : list string) (root : string) :
  find_in_files files root root = root.
Proof. induction files as [|f files IH]; simpl; [| destruct (is_image f)]; auto. Qed.

(** Whatever was extracted, the search ends on the extraction root: the
    unconditional [break] stops [os.walk] after its first triple. *)
Lemma image_folder_is_root (top : string) (s s' : state)
    (walk : list (string * list string * list string)) :
  os_walk top s = Ret walk s' -> find_image_folder walk top = top.
Proof.
  unfold os_walk. intros [= <- _].
  destruct (resolve_dir s top); [| reflexivity].
  apply find_in_files_root.
Qed.

(** C1, at an archive that holds [photos/a.jpg] and [photos/b.jpg] and no
    file at its top level: the extraction directory holds the directory
    [photos]; breadth-first, the first directory with an image is
    [temp/task-0/photos]; the code's search returns [temp/task-0], counts no
    image there, and the task fails with "No images found". *)
Theorem nested_images_not_found :
  let s := final_state (demo_submit [] good_download 3 "nested") in
  dirs s !! "temp/task-0" = Some [Dir "photos" [File "a.jpg"; File "b.jpg"]]
  /\ bfs_image_dir 2 [("temp/task-0", [Dir "photos" [File "a.jpg"; File "b.jpg"]])]
     = Some "temp/task-0/photos"
  /\ (exists walk, os_walk "temp/task-0" s = Ret walk s
                   /\ find_image_folder walk "temp/task-0" = "temp/task-0")
  /\ (snd <$> observed empty_state s) !! 4
     = Some (Task "task-0" uploading 0 "Uploading 0 images..." "photos.zip" 0 None None)
  /\ tasks s !! "task-0"
     = Some (Task "task-0" failed 0 "No images found" "photos.zip" 0 None None).
Proof.
  cbv zeta. conjs.
  - vm_compute. reflexivity.
  - vm_compute. reflexivity.
  - eexists. split; [reflexivity |]. vm_compute. reflexivity.
  - vm_compute. reflexivity.
  - vm_compute. reflexivity.
Qed.

(** ** The top-level handler (process_task, lines 136 and 216-218) *)

(** C6. When an exception leaves the body of [process_task], at whatever
    stage, for a registered task, [process_task] itself returns normally
    and leaves the task [failed] with the exception's text as message. *)
Theorem exception_marks_failed (w : world) (fuel : nat) (task_id archive_path : string)
    (s s1 : state) (t0 : task) (e : exn) :
  tasks s !! task_id = Some t0 ->
  process_task_body w fuel task_id archive_path s = Raise e s1 ->
  exists s' t',
    process_task w fuel task_id archive_path s = Ret tt s'
    /\ tasks s' !! task_id = Some t'
    /\ status t' = failed
    /\ message t' = str e.
Proof.
  intros Ht0 Hraise.
  destruct (process_task_body_run w fuel task_id archive_path s t0 Ht0)
    as (r & s1' & E & Hw & _).
  rewrite Hraise in E.
  destruct (body_exn r) as [e'|]; [| destruct (still_polling r); discriminate].
  injection E as -> ->.
  pose proof (wrote_cur _ _ _ _ _ Hw Ht0) as Hcur.
  unfold process_task, try_except. rewrite Hraise.
  unfold bind. do 2 registry_write.
  eexists. eexists. split; [reflexivity |]. split; [apply tasks_write |].
  split; reflexivity.
Qed.

Lemma exception_marks_failed_witness :
  exists s' t',
    process_task (demo_world [] good_download) 3 "task-0" "uploads/task-0.zip"
      (demo_uploaded "odd") = Ret tt s'
    /\ tasks s' !! "task-0" = Some t'
    /\ status t' = failed
    /\ message t' = str (IsADirectoryError "temp/task-0/frame.jpg").
Proof.
  eapply (exception_marks_failed (demo_world [] good_download) 3 "task-0"
            "uploads/task-0.zip" (demo_uploaded "odd")).
  - vm_compute. reflexivity.
  - vm_compute. reflexivity.
Defined.

(** ** Extraction failure (extract_archive; process_task, lines 136-158) *)

(** C7. When [extract_archive] raises for a registered task, [process_task]
    writes four records and no more: the status [extracting] and its message,
    then the status [failed] and the exception's text, which is one of the two
    messages of [extract_archive].  No record with the status [uploading] is
    ever written. *)
Theorem extraction_failure_trace (w : world) (fuel : nat) (task_id archive_path : string)
    (s s0 s0' : state) (t0 : task) (e : exn) :
  tasks s !! task_id = Some t0 ->
  let extract_dir := Py.path_join TEMP_DIR task_id in
  let started := mark extracting "Extracting images..." t0 in
  os_makedirs extract_dir (writes task_id started s) = Ret tt s0 ->
  extract_archive w archive_path extract_dir s0 = Raise e s0' ->
  exists s',
    process_task w fuel task_id archive_path s = Ret tt s'
    /\ observed s s'
       = (fun t => (task_id, t)) <$> started ++ mark failed (str e) (cur t0 started)
    /\ status <$> (snd <$> observed s s') = [extracting; extracting; failed; failed]
    /\ (forall t, (task_id, t) ∈ observed s s' -> status t <> uploading)
    /\ (message <$> tasks s' !! task_id) = Some (str e)
    /\ (str e = unrar_not_installed
        \/ exists detail, str e = "Extraction failed: " +:+ detail).
Proof.
  intros Ht0 extract_dir started Hmk Hex.
  destruct (os_makedirs_run extract_dir (writes task_id started s)) as (d1 & [E1 | [e1 E1]]);
    rewrite Hmk in E1; [| discriminate]. injection E1 as ->.
  destruct (extract_archive_run w archive_path extract_dir
              (with_dirs d1 (writes task_id started s)))
    as (d2 & [E2 | (msg & E2 & Hmsg)]);
    pose proof (eq_trans (eq_sym Hex) E2) as Heq; [discriminate Heq |].
  injection Heq as -> ->.
  unfold process_task, try_except, process_task_body.
  do 2 step_write. cbv zeta. fold extract_dir.
  erewrite bind_Ret by exact Hmk. cbv beta.
  erewrite bind_Raise by exact Hex.
  unfold bind. do 2 registry_write.
  eexists. split; [reflexivity |].
  match goal with
  | |- observed s ?X = _ /\ _ =>
      assert (Hobs : observed s X
                     = (fun t => (task_id, t)) <$>
                         started ++ mark failed (str (PyException msg)) (cur t0 started))
        by (apply wrote_observed; now split)
  end.
  rewrite Hobs. conjs.
  - reflexivity.
  - reflexivity.
  - intros t Ht. cbn in Ht.
    repeat (apply elem_of_cons in Ht as [[= ->] | Ht]; [discriminate |]).
    now apply elem_of_nil in Ht.
  - cbn. now rewrite lookup_insert_eq.
  - exact Hmsg.
Qed.

Lemma extraction_failure_trace_witness :
  exists s',
    process_task (demo_world [] good_download) 3 "task-0" "uploads/task-0.zip"
      (demo_uploaded "corrupt") = Ret tt s'
    /\ status <$> (snd <$> observed (demo_uploaded "corrupt") s')
       = [extracting; extracting; failed; failed]
    /\ (message <$> tasks s' !! "task-0")
       = Some "Extraction failed: File is not a zip file".
Proof.
  destruct (extraction_failure_trace (demo_world [] good_download) 3 "task-0"
              "uploads/task-0.zip" (demo_uploaded "corrupt")
              (final_state (os_makedirs "temp/task-0"
                 (writes "task-0"
                    (mark extracting "Extracting images..."
                       (Task "task-0" queued 0 "Task queued" "photos.zip" 0 None None))
                    (demo_uploaded "corrupt"))))
              (final_state (os_makedirs "temp/task-0"
                 (writes "task-0"
                    (mark extracting "Extracting images..."
                       (Task "task-0" queued 0 "Task queued" "photos.zip" 0 None None))
                    (demo_uploaded "corrupt"))))
              (Task "task-0" queued 0 "Task queued" "photos.zip" 0 None None)
              (PyException "Extraction failed: File is not a zip file"))
    as (s' & E & _ & Hst & _ & Hmsg & _).
  - vm_compute. reflexivity.
  - vm_compute. reflexivity.
  - vm_compute. reflexivity.
  - exists s'. auto.
Defined.

(** ** Cleanup (process_task, lines 161-166 and 211-214) *)

(** C2, on the code: a task whose extraction fails ends [failed] with its
    extraction directory and its archive still on disk. *)
Lemma corrupt_archive_not_cleaned :
  let s := final_state (demo_submit [] good_download 3 "corrupt") in
  tasks s !! "task-0"
  = Some (Task "task-0" failed 0 "Extraction failed: File is not a zip file"
            "photos.zip" 0 None None)
  /\ dirs s !! "temp/task-0" = Some []
  /\ files s !! "uploads/task-0.zip" = Some "corrupt"
  /\ ~ cleaned_up "task-0" "uploads/task-0.zip" s.
Proof.
  cbv zeta. conjs; try (vm_compute; reflexivity).
  intros [_ H]. vm_compute in H. discriminate.
Qed.

(** C2, amended.  When a run of [process_task] that reached [processing]
    has ended (remote failure or cancellation, download failure, or
    completion), the extraction directory and the archive are gone, every
    other file but the output file is as it was, and the output file of a
    [completed] task is on disk.  When an exception ends the run before
    [processing] (an extraction error), no file is deleted. *)
Theorem cleanup_after_polling (w : world) (fuel : nat) (task_id archive_path : string)
    (s s' : state) (t0 : task) :
  tasks s !! task_id = Some t0 ->
  process_task w fuel task_id archive_path s = Ret tt s' ->
  let out := Py.path_join OUTPUT_DIR (task_id +:+ ".zip") in
  ((exists t, (task_id, t) ∈ observed s s' /\ status t = processing) ->
   cleaned_up task_id archive_path s'
   /\ (forall p, p <> archive_path -> p <> out -> files s' !! p = files s !! p)
   /\ (forall t', tasks s' !! task_id = Some t' -> status t' = completed ->
       archive_path <> out -> is_Some (files s' !! out)))
  /\ (forall e s1,
        process_task_body w fuel task_id archive_path s = Raise e s1 ->
        (forall t, (task_id, t) ∈ observed s s' -> status t <> processing) ->
        files s' = files s).
Proof.
  intros Ht0 Hret out.
  destruct (process_task_observed w fuel task_id archive_path s t0 Ht0)
    as (r & s1 & Eb & E & Hobs & Hcur & Hfacts & _).
  rewrite Hret in E, Hobs, Hcur, Hfacts. cbn [final_state] in *.
  unfold disk_after in Hfacts.
  assert (Hpoll : still_polling r = false)
    by (destruct (still_polling r); [discriminate | reflexivity]).
  split.
  - intros (t & Ht & Hst). rewrite Hobs in Ht. apply observed_elem in Ht.
    destruct r as [e|n e|n err|n wid ps le c].
    1-3: cbn in Ht; trace_elem Ht; discriminate.
    destruct le.
    { destruct Hfacts as [-> _]. discriminate. }
    all: destruct Hfacts as (Hd & Hgone & Hframe & Hout & _).
    all: unfold cleaned_up; conjs; try assumption.
    all: intros t' Ht' Hcompleted Hne.
    all: rewrite Hcur in Ht'; injection Ht' as <-.
    all: rewrite status_final in Hcompleted.
    all: destruct c; try discriminate.
    now apply Hout.
  - intros e s1' Hraise Hnever.
    rewrite Hraise in Eb.
    destruct r as [e1|n e1|n err|n wid ps le c]; try exact Hfacts.
    exfalso. apply (Hnever (loop_start n wid t0)); [| reflexivity].
    rewrite Hobs. apply list_elem_of_fmap_2.
    destruct (run_trace_Looped task_id t0 n wid ps le c) as (p & -> & _).
    apply elem_of_app. left. cbn. do 6 apply list_elem_of_further.
    apply list_elem_of_here.
Qed.

Lemma cleanup_after_polling_witness :
  let s' := final_state (process_task (demo_world [remote_completed 100] good_download) 2
                           "task-0" "uploads/task-0.zip" (demo_uploaded "flat")) in
  cleaned_up "task-0" "uploads/task-0.zip" s'
  /\ is_Some (files s' !! "outputs/task-0.zip").
Proof.
  cbv zeta.
  pose proof (cleanup_after_polling (demo_world [remote_completed 100] good_download) 2
                "task-0" "uploads/task-0.zip" (demo_uploaded "flat")
                (final_state (process_task (demo_world [remote_completed 100] good_download)
                                2 "task-0" "uploads/task-0.zip" (demo_uploaded "flat")))
                (Task "task-0" queued 0 "Task queued" "photos.zip" 0 None None)) as H.
  destruct H as [H _]; [vm_compute; reflexivity | vm_compute; reflexivity |].
  destruct H as (Hclean & _ & Hout).
  - exists (Task "task-0" processing 0 "Processing orthomosaic..." "photos.zip" 0
              (Some (Some "remote-1")) None).
    split; [| reflexivity]. apply list_elem_of_In. vm_compute. tauto.
  - split; [exact Hclean |].
    eapply Hout; [vm_compute; reflexivity | reflexivity | discriminate].
Defined.

(** ** Progress (upload_images; process_task, lines 179-195) *)

(** C3, on the code: the remote service reports 50 and then 30 while
    running; the task, in the state [processing], shows 50 and then 30. *)
Lemma progress_decreases :
  let s := final_state (demo_submit [remote_running 50; remote_running 30]
                          good_download 2 "flat") in
  let seen := snd <$> observed empty_state s in
  ((fun t => (status t, progress t)) <$> seen !! 8) = Some (processing, 50%Z)
  /\ ((fun t => (status t, progress t)) <$> seen !! 9) = Some (processing, 30%Z)
  /\ ~ never_decreases_while_processing seen.
Proof.
  cbv zeta. conjs; try (vm_compute; reflexivity).
  intros H.
  specialize (H 8
                (Task "task-0" processing 50 "Processing orthomosaic..." "photos.zip" 0
                   (Some (Some "remote-1")) None)
                (Task "task-0" processing 30 "Processing orthomosaic..." "photos.zip" 0
                   (Some (Some "remote-1")) None)).
  cbn [status progress] in H.
  assert (50 <= 30)%Z; [| lia].
  apply H; try reflexivity; vm_compute; reflexivity.
Qed.

(** C3, amended.  A record is created with progress 0; in the polling loop
    every answer with a running code overwrites the progress with the value
    the remote service reports, larger or smaller; and when a run has ended
    with the status [completed], the progress is 100. *)
Theorem progress_lifecycle :
  (forall (w : world) (file : UploadFile) (s s' : state) (response : TaskResponse.t),
     upload_images w file s = Ret response s' ->
     exists t, tasks s' !! TaskResponse.task_id response = Some t
               /\ status t = queued /\ progress t = 0%Z)
  /\ (forall (w : world) (fuel : nat) (task_id : string) (wid : option string)
             (s : state) (t : task) (code p : Z),
        tasks s !! task_id = Some t ->
        parse_info (requests_get_info w wid (polled s)) = Some (StatusData code p) ->
        terminal_code code = false ->
        poll_loop w (S fuel) task_id wid s
        = poll_loop w fuel task_id wid
            (with_clock (clock s + 10)
               (write task_id (set_progress p t) (with_polled (S (polled s)) s))))
  /\ (forall (w : world) (fuel : nat) (task_id archive_path : string)
             (s s' : state) (t0 t' : task),
        tasks s !! task_id = Some t0 ->
        process_task w fuel task_id archive_path s = Ret tt s' ->
        tasks s' !! task_id = Some t' ->
        status t' = completed ->
        progress t' = 100%Z).
Proof.
  conjs.
  - intros w file s s' response. unfold upload_images.
    destruct (negb _); [discriminate |].
    unfold bind, uuid_lib_uuid4, write_file, time_time, new_item, add_task, ret.
    intros [= <- <-]. eexists. split; [apply lookup_insert_eq |]. split; reflexivity.
  - intros. eapply poll_loop_running; eassumption.
  - intros w fuel task_id archive_path s s' t0 t' Ht0 Hret Ht' Hst.
    destruct (process_task_observed w fuel task_id archive_path s t0 Ht0)
      as (r & s1 & _ & _ & _ & Hcur & _).
    rewrite Hret in Hcur. cbn [final_state] in Hcur.
    rewrite Hcur in Ht'. injection Ht' as <-.
    rewrite status_final in Hst. now apply completed_final.
Qed.

Lemma progress_lifecycle_witness :
  exists t',
    tasks (final_state (process_task
                          (demo_world [remote_running 40; remote_completed 97] good_download)
                          2 "task-0" "uploads/task-0.zip" (demo_uploaded "flat")))
      !! "task-0" = Some t'
    /\ status t' = completed /\ progress t' = 100%Z.
Proof.
  exists (Task "task-0" completed 100 "Complete!" "photos.zip" 0
            (Some (Some "remote-1")) (Some "outputs/task-0.zip")).
  split; [vm_compute; reflexivity |]. split; [reflexivity |].
  refine (proj2 (proj2 progress_lifecycle)
            (demo_world [remote_running 40; remote_completed 97] good_download) 2
            "task-0" "uploads/task-0.zip" (demo_uploaded "flat") _
            (Task "task-0" queued 0 "Task queued" "photos.zip" 0 None None) _ _ _ _ _).
  - vm_compute. reflexivity.
  - vm_compute. reflexivity.
  - vm_compute. reflexivity.
  - reflexivity.
Defined.

(** ** The output file (process_task, lines 184-199; download_result) *)

(** C5, on the code: a run that succeeds writes the status [completed]
    (line 192) two assignments before [output_file] (line 194); in between,
    the registry holds a [completed] record without an output file. *)
Lemma completed_before_output_file :
  let s := final_state (demo_submit [remote_completed 100] good_download 2 "flat") in
  let seen := snd <$> observed empty_state s in
  ((fun t => (status t, output_file t)) <$> seen !! 11) = Some (completed, None)
  /\ ((fun t => (status t, output_file t)) <$> seen !! 12) = Some (completed, None)
  /\ ((fun t => (status t, output_file t)) <$> seen !! 13)
     = Some (completed, Some "outputs/task-0.zip")
  /\ exists t, seen !! 11 = Some t /\ ~ output_iff_completed t.
Proof.
  cbv zeta. conjs; try (vm_compute; reflexivity).
  eexists. split; [vm_compute; reflexivity |].
  intros [_ H]. destruct (H eq_refl) as [out Hout]. discriminate.
Qed.

(** C5, amended.  For a task that records no output file yet and whose
    archive is on disk: during a run of [process_task] no record holds an
    output file unless its status is [completed], so that a [failed] record
    never holds one; and when the run has ended, the record holds an output
    file if and only if its status is [completed]. *)
Theorem output_file_iff_completed (w : world) (fuel : nat) (task_id archive_path : string)
    (s : state) (t0 : task) :
  tasks s !! task_id = Some t0 ->
  output_file t0 = None ->
  is_Some (files s !! archive_path) ->
  let res := process_task w fuel task_id archive_path s in
  let s' := final_state res in
  (forall t, (task_id, t) ∈ observed s s' ->
             is_Some (output_file t) -> status t = completed)
  /\ (forall t, (task_id, t) ∈ observed s s' ->
                status t = failed -> output_file t = None)
  /\ (res = Ret tt s' ->
      exists t', tasks s' !! task_id = Some t' /\ output_iff_completed t').
Proof.
  intros Ht0 Hnone Harchive res s'.
  destruct (process_task_observed w fuel task_id archive_path s t0 Ht0)
    as (r & s1 & _ & _ & Hobs & Hcur & Hfacts & _).
  fold res in Hobs, Hcur, Hfacts. fold s' in Hobs, Hcur, Hfacts.
  unfold disk_after in Hfacts.
  assert (Hclean : forall n wid ps le e, r <> Looped n wid ps le (Some e)).
  { intros n wid ps le e ->. destruct le.
    - now destruct Hfacts.
    - destruct Hfacts as (_ & _ & _ & _ & H). now specialize (H Harchive).
    - destruct Hfacts as (_ & _ & _ & _ & H). now specialize (H Harchive).
    - destruct Hfacts as (_ & _ & _ & _ & H). now specialize (H Harchive).
    - destruct Hfacts as (_ & _ & _ & _ & H). now specialize (H Harchive). }
  assert (Hinv : forall t, (task_id, t) ∈ observed s s' ->
                           is_Some (output_file t) -> status t = completed).
  { intros t Ht. rewrite Hobs in Ht. apply observed_elem in Ht.
    now apply (output_only_when_completed task_id t0 r). }
  conjs.
  - exact Hinv.
  - intros t Ht Hfailed. destruct (output_file t) as [out|] eqn:Hout; [| reflexivity].
    rewrite (Hinv t Ht) in Hfailed; [discriminate | now rewrite Hout].
  - intros _. eexists. split; [exact Hcur |]. split.
    + apply Hinv. rewrite Hobs. apply list_elem_of_fmap_2, cur_elem, run_trace_nonempty.
    + rewrite status_final. intros H.
      destruct (completed_final task_id t0 r H) as (_ & -> & _). now eexists.
Qed.

Lemma output_file_iff_completed_witness :
  exists t',
    tasks (final_state (process_task (demo_world [remote_completed 100] DlRaise) 2
                          "task-0" "uploads/task-0.zip" (demo_uploaded "flat")))
      !! "task-0" = Some t'
    /\ output_iff_completed t'.
Proof.
  refine (proj2 (proj2 (output_file_iff_completed
                          (demo_world [remote_completed 100] DlRaise) 2
                          "task-0" "uploads/task-0.zip" (demo_uploaded "flat")
                          (Task "task-0" queued 0 "Task queued" "photos.zip" 0 None None)
                          _ _ _)) _).
  - vm_compute. reflexivity.
  - reflexivity.
  - vm_compute. now eexists.
  - vm_compute. reflexivity.
Defined.

(** ** Listing (routes.py, list_tasks) *)

(** C10. [list_tasks] returns the records of the registry as they are, and
    their number; [get_task_status] answers from the status, the progress
    and the message alone.  A record that [process_task] wrote with the
    status [processing], [downloading] or [completed] carries the remote
    identifier, and the record of a run that ended [completed] carries the
    path of the output file: the listing shows both. *)
Theorem list_tasks_exposes_records :
  (forall s : state,
     total (list_tasks s) = size (tasks s)
     /\ length (tl_tasks (list_tasks s)) = size (tasks s)
     /\ forall t, t ∈ tl_tasks (list_tasks s) <-> exists id, tasks s !! id = Some t)
  /\ (forall (s1 s2 : state) (task_id : string) (t1 t2 : task),
        tasks s1 !! task_id = Some t1 -> tasks s2 !! task_id = Some t2 ->
        status t1 = status t2 -> progress t1 = progress t2 -> message t1 = message t2 ->
        get_task_status s1 task_id = get_task_status s2 task_id)
  /\ (forall (w : world) (fuel : nat) (task_id archive_path : string)
             (s : state) (t0 : task),
        tasks s !! task_id = Some t0 ->
        let s' := final_state (process_task w fuel task_id archive_path s) in
        (forall t, (task_id, t) ∈ observed s s' ->
                   status t ∈ [processing; downloading; completed] ->
                   is_Some (webodm_task_id t))
        /\ exists t', tasks s' !! task_id = Some t'
                      /\ t' ∈ tl_tasks (list_tasks s')
                      /\ (status t' ∈ [processing; downloading; completed] ->
                          is_Some (webodm_task_id t'))
                      /\ (status t' = completed ->
                          output_file t'
                          = Some (Py.path_join OUTPUT_DIR (task_id +:+ ".zip")))).
Proof.
  conjs.
  - intros s. unfold list_tasks. cbn [total tl_tasks]. conjs.
    + reflexivity.
    + now rewrite length_fmap, length_map_to_list.
    + intros t. rewrite list_elem_of_fmap. split.
      * intros ([id t'] & -> & H%elem_of_map_to_list). now exists id.
      * intros [id H]. exists (id, t). split; [reflexivity |].
        now apply elem_of_map_to_list.
  - intros s1 s2 task_id t1 t2 H1 H2 Hst Hp Hm. unfold get_task_status.
    now rewrite H1, H2, Hst, Hp, Hm.
  - intros w fuel task_id archive_path s t0 Ht0 s'.
    destruct (process_task_observed w fuel task_id archive_path s t0 Ht0)
      as (r & s1 & _ & _ & Hobs & Hcur & _).
    fold s' in Hobs, Hcur.
    assert (Hinv : forall t, (task_id, t) ∈ observed s s' ->
                             status t ∈ [processing; downloading; completed] ->
                             is_Some (webodm_task_id t)).
    { intros t Ht. rewrite Hobs in Ht. apply observed_elem in Ht.
      now apply (remote_id_once_processing task_id t0 r). }
    split; [exact Hinv |].
    eexists. split; [exact Hcur |]. conjs.
    + unfold list_tasks. cbn [tl_tasks]. apply list_elem_of_fmap.
      exists (task_id, cur t0 (run_trace task_id t0 r)). split; [reflexivity |].
      now apply elem_of_map_to_list.
    + apply Hinv. rewrite Hobs.
      apply list_elem_of_fmap_2, cur_elem, run_trace_nonempty.
    + rewrite status_final. intros H.
      now destruct (completed_final task_id t0 r H) as (_ & -> & _).
Qed.

Lemma list_tasks_exposes_records_witness :
  exists t',
    t' ∈ tl_tasks (list_tasks (final_state
            (process_task (demo_world [remote_completed 100] good_download) 2
               "task-0" "uploads/task-0.zip" (demo_uploaded "flat"))))
    /\ webodm_task_id t' = Some (Some "remote-1")
    /\ output_file t' = Some "outputs/task-0.zip".
Proof.
  destruct (proj2 (proj2 list_tasks_exposes_records)
              (demo_world [remote_completed 100] good_download) 2
              "task-0" "uploads/task-0.zip" (demo_uploaded "flat")
              (Task "task-0" queued 0 "Task queued" "photos.zip" 0 None None))
    as (_ & t' & Ht' & Hlisted & _ & Hout).
  - vm_compute. reflexivity.
  - exists t'. split; [exact Hlisted |].
    vm_compute in Ht'. injection Ht' as <-. split; reflexivity.
Defined.

(** * Further properties of the handlers and of the helpers *)

(** ** File names and archive paths *)

Lemma append_assoc (a b c : string) : (a +:+ b) +:+ c = a +:+ b +:+ c.
Proof.
  induction a as [|x a IH]; [reflexivity|].
  change (String x ((a +:+ b) +:+ c) = String x (a +:+ b +:+ c)). now rewrite IH.
Qed.

Lemma append_inv_head (a b c : string) : a +:+ b = a +:+ c -> b = c.
Proof. induction a as [|x a IH]; simpl; [auto | intros [= H]; auto]. Qed.

Lemma split_sep_tail (sep : ascii) (a b : string) :
  exists h t, Py.split sep (a +:+ String sep b) = h :: t
              /\ t <> [] /\ List.last t "" = Py.last_item (Py.split sep b).
Proof.
  assert (Hne : forall s, Py.split sep s <> []).
  { intros [|c r]; simpl; [discriminate|].
    destruct (Ascii.eqb c sep); [discriminate|]. now destruct (Py.split sep r). }
  induction a as [|c a (h & t & E & Ht & Hl)]; simpl.
  - rewrite Ascii.eqb_refl. exists "", (Py.split sep b). auto.
  - rewrite E. destruct (Ascii.eqb c sep).
    + exists "", (h :: t). repeat split; [discriminate|].
      destruct t; [contradiction|]. exact Hl.
    + exists (String c h), t. auto.
Qed.

Lemma last_item_split_app (sep : ascii) (a b : string) :
  Py.last_item (Py.split sep (a +:+ String sep b)) = Py.last_item (Py.split sep b).
Proof.
  destruct (split_sep_tail sep a b) as (h & t & -> & Ht & Hl).
  unfold Py.last_item at 1. destruct t; [contradiction|]. exact Hl.
Qed.

Lemma accepted_extension (name : string) :
  Py.endswith_any (Py.lower name) [".zip"; ".rar"] = true ->
  let ext := Py.last_item (Py.split "." (Py.lower name)) in
  (ext = "zip" \/ ext = "rar") /\ has_extension name ("." +:+ ext).
Proof.
  unfold Py.endswith_any. cbn [existsb]. rewrite orb_false_r.
  intros [H|H]%orb_true_iff; pose proof H as H';
    apply endswith_suffix in H as [stem H]; cbv zeta; rewrite H;
    rewrite (last_item_split_app "." stem); cbn; split; auto;
    now apply endswith_lower_iff.
Qed.

Lemma dispatch_extension (dir task_id ext : string) :
  ext = "zip" \/ ext = "rar" ->
  Py.last_item (Py.split "." (Py.lower (Py.path_join dir (task_id +:+ "." +:+ ext)))) = ext.
Proof.
  intros Hext. unfold Py.path_join.
  replace (dir +:+ "/" +:+ task_id +:+ "." +:+ ext)
    with ((dir +:+ "/" +:+ task_id) +:+ String "." ext).
  2:{ now rewrite !append_assoc. }
  rewrite lower_app. change (Py.lower (String "." ext)) with (String "." (Py.lower ext)).
  rewrite last_item_split_app. now destruct Hext as [-> | ->].
Qed.

Lemma upload_paths_differ (task_id : string) :
  Py.path_join UPLOAD_DIR (task_id +:+ ".zip") <> Py.path_join UPLOAD_DIR (task_id +:+ ".rar").
Proof.
  unfold Py.path_join. intros H. do 3 apply append_inv_head in H. discriminate.
Qed.

(** ** Accepted submissions (routes.py, upload_images) *)

Lemma upload_images_run (w : world) (file : UploadFile) (s : state) :
  Py.endswith_any (Py.lower (uf_filename file)) [".zip"; ".rar"] = true ->
  let id := uuid4 w (drawn s) in
  let ext := Py.last_item (Py.split "." (Py.lower (uf_filename file))) in
  let path := Py.path_join UPLOAD_DIR (id +:+ "." +:+ ext) in
  upload_images w file s
  = Ret (TaskResponse.Make id "queued" "Task created. Check /status/{task_id}")
      (with_background (background s ++ [(id, path)])
         (write id (Task id queued 0 "Task queued" (uf_filename file) (clock s) None None)
            (with_files (<[path := uf_bytes file]> (files s)) (with_drawn (S (drawn s)) s)))).
Proof. intros H. unfold upload_images. rewrite H. reflexivity. Qed.

(** X1. A file whose name ends, in any letter case, in [.zip] or [.rar] is
    always accepted.  The identifier is the next UUID; the bytes are written
    to [uploads/<id>.zip] or [uploads/<id>.rar], the extension in lower case
    being the one the name ends in; the record is created [queued] with
    progress 0, replacing whatever was registered under that identifier; one
    background task is queued for that path; and the status endpoint answers
    for the new identifier at once, without a download URL. *)
Theorem accepted_submission (w : world) (file : UploadFile) (s : state) :
  has_extension (uf_filename file) ".zip" \/ has_extension (uf_filename file) ".rar" ->
  let id := uuid4 w (drawn s) in
  let record := Task id queued 0 "Task queued" (uf_filename file) (clock s) None None in
  exists ext s',
    (ext = "zip" \/ ext = "rar")
    /\ has_extension (uf_filename file) ("." +:+ ext)
    /\ upload_images w file s
       = Ret (TaskResponse.Make id "queued" "Task created. Check /status/{task_id}") s'
    /\ tasks s' = <[id := record]> (tasks s)
    /\ files s' = <[Py.path_join UPLOAD_DIR (id +:+ "." +:+ ext) := uf_bytes file]> (files s)
    /\ dirs s' = dirs s
    /\ background s' = background s ++ [(id, Py.path_join UPLOAD_DIR (id +:+ "." +:+ ext))]
    /\ drawn s' = S (drawn s)
    /\ get_task_status s' id = inr (TaskStatus.Make id "queued" 0 "Task queued" None).
Proof.
  intros Hext id record.
  assert (H : Py.endswith_any (Py.lower (uf_filename file)) [".zip"; ".rar"] = true).
  { unfold Py.endswith_any. cbn [existsb]. rewrite orb_false_r. apply orb_true_iff.
    destruct Hext as [H|H]; [left|right]; now apply endswith_lower. }
  destruct (accepted_extension _ H) as [He Hh].
  eexists _, _. split; [exact He|]. split; [exact Hh|].
  split; [apply (upload_images_run w file s H)|].
  cbn [tasks files dirs background drawn with_background write with_tasks with_files with_drawn].
  conjs; try reflexivity.
  unfold get_task_status.
  cbn [tasks files dirs background drawn with_background write with_tasks with_files with_drawn].
  now rewrite lookup_insert_eq.
Qed.

(** [photos.zip] submitted to an empty server. *)
Lemma accepted_submission_witness :
  exists s',
    upload_images (demo_world [] good_download) (photos_zip "flat") empty_state
    = Ret (TaskResponse.Make "task-0" "queued" "Task created. Check /status/{task_id}") s'
    /\ files s' = <[ "uploads/task-0.zip" := "flat" ]> ∅
    /\ background s' = [("task-0", "uploads/task-0.zip")].
Proof.
  assert (H : has_extension "photos.zip" ".zip" \/ has_extension "photos.zip" ".rar").
  { left. exists "photos", ".zip". split; reflexivity. }
  destruct (accepted_submission (demo_world [] good_download) (photos_zip "flat") empty_state H)
    as (ext & s' & He & Hh & E & _ & Hf & _ & Hb & _).
  exists s'. split; [exact E|].
  assert (ext = "zip") as ->.
  { destruct He as [-> | ->]; [reflexivity|]. exfalso.
    apply endswith_lower_iff in Hh. discriminate Hh. }
  split; [exact Hf | exact Hb].
Defined.

(** X2. The path [upload_images] hands to the background task is on disk with
    the uploaded bytes, and the extension [extract_archive] computes from it
    (the text after the last dot of the lower-cased path) is [zip] or [rar],
    the same extension the uploaded name ends in: whatever the name and the
    identifier look like, the branch for an unsupported format is not the one
    taken for an uploaded archive. *)
Theorem queued_archive_extension (w : world) (file : UploadFile) (s s' : state)
    (response : TaskResponse.t) :
  upload_images w file s = Ret response s' ->
  exists archive_path ext,
    background s' = background s ++ [(TaskResponse.task_id response, archive_path)]
    /\ files s' !! archive_path = Some (uf_bytes file)
    /\ (ext = "zip" \/ ext = "rar")
    /\ has_extension (uf_filename file) ("." +:+ ext)
    /\ Py.last_item (Py.split "." (Py.lower archive_path)) = ext.
Proof.
  intros E.
  destruct (Py.endswith_any (Py.lower (uf_filename file)) [".zip"; ".rar"]) eqn:H.
  2:{ unfold upload_images in E. rewrite H in E. discriminate E. }
  rewrite (upload_images_run w file s H) in E. injection E as <- <-.
  destruct (accepted_extension _ H) as [He Hh].
  eexists _, _. cbn [TaskResponse.task_id background with_background].
  split; [reflexivity|].
  cbn [tasks files dirs background drawn with_background write with_tasks with_files with_drawn].
  split; [apply lookup_insert_eq|].
  split; [exact He|]. split; [exact Hh|]. now apply dispatch_extension.
Qed.

(** The archive queued for [photos.zip]. *)
Lemma queued_archive_extension_witness :
  exists archive_path,
    background (demo_uploaded "flat") = [("task-0", archive_path)]
    /\ Py.last_item (Py.split "." (Py.lower archive_path)) = "zip".
Proof.
  destruct (queued_archive_extension (demo_world [] good_download) (photos_zip "flat")
              empty_state (demo_uploaded "flat")
              (TaskResponse.Make "task-0" "queued" "Task created. Check /status/{task_id}")
              eq_refl)
    as (p & ext & Hb & _ & He & Hh & Hd).
  exists p. split; [exact Hb|]. rewrite Hd.
  destruct He as [-> | ->]; [reflexivity|]. exfalso.
  apply endswith_lower_iff in Hh. discriminate Hh.
Defined.

(** ** Deleting a task (routes.py, delete_task) *)

Lemma off_tree_exists (s : state) (p : string) (fs : gmap string string) :
  off_tree s p = true ->
  os_path_exists (with_files fs s) p
  = (negb (String.eqb p "") && bool_decide (is_Some (fs !! p)))%bool.
Proof.
  unfold off_tree, os_path_exists, is_regular_file.
  intros [H1 H2]%andb_true_iff.
  apply negb_true_iff in H1. apply negb_true_iff in H2.
  change (resolve_dir (with_files fs s) p) with (resolve_dir s p).
  change (all_dirs (with_files fs s)) with (all_dirs s).
  rewrite H1, H2. cbn [files with_files]. now rewrite !orb_false_r.
Qed.

Lemma remove_if_exists_run (s : state) (p : string) (fs : gmap string string) :
  off_tree s p = true ->
  remove_if_exists p (with_files fs s)
  = Ret tt (with_files (if String.eqb p "" then fs else delete p fs) s).
Proof.
  intros H. unfold remove_if_exists. rewrite (off_tree_exists _ _ _ H).
  destruct (String.eqb p "") eqn:Ep; [reflexivity|]. cbn [negb andb].
  unfold os_remove. cbn [files with_files].
  destruct (fs !! p) as [b|] eqn:E.
  - rewrite bool_decide_true by eauto. reflexivity.
  - rewrite bool_decide_false by (intros [? [=]]). now rewrite delete_id.
Qed.

Lemma remove_if_exists_frame (p : string) (s : state) :
  (exists fs, remove_if_exists p s = Ret tt (with_files fs s))
  \/ (exists e, remove_if_exists p s = Raise e s).
Proof.
  unfold remove_if_exists, os_remove.
  destruct (os_path_exists s p).
  - destruct (files s !! p); [left; eauto|].
    destruct (bool_decide _); right; eauto.
  - left. exists (files s). now rewrite with_files_id.
Qed.

Lemma remove_uploads_frame (task_id : string) (exts : list string) (s : state) :
  exists fs, remove_uploads task_id exts s = Ret tt (with_files fs s)
             \/ exists e, remove_uploads task_id exts s = Raise e (with_files fs s).
Proof.
  revert s. induction exts as [|ext exts IH]; intros s; cbn [remove_uploads].
  - exists (files s). left. now rewrite with_files_id.
  - destruct (remove_if_exists_frame (Py.path_join UPLOAD_DIR (task_id +:+ "." +:+ ext)) s)
      as [[fs E]|[e E]].
    + rewrite (bind_Ret _ _ _ _ _ E). destruct (IH (with_files fs s)) as (fs' & H).
      exists fs'. exact H.
    + rewrite (bind_Raise _ _ _ _ _ E). exists (files s). right. exists e.
      now rewrite with_files_id.
Qed.

Lemma delete_task_run (task_id : string) (s : state) :
  match delete_task task_id s with
  | Ret msg s' =>
      msg = "Task deleted" /\ is_Some (tasks s !! task_id)
      /\ exists fs, s' = with_tasks (delete task_id (tasks s)) (log s) (with_files fs s)
  | Raise e s' =>
      (tasks s !! task_id = None /\ e = HTTPException 404 "Task not found" /\ s' = s)
      \/ (is_Some (tasks s !! task_id) /\ exists fs, s' = with_files fs s)
  | Polling _ => False
  end.
Proof.
  unfold delete_task. destruct (tasks s !! task_id) as [t|] eqn:Ht; [|now left].
  assert (H1 : (exists fs, match output_file t with
                           | Some output_file => remove_if_exists output_file
                           | None => ret tt
                           end s = Ret tt (with_files fs s))
               \/ (exists e, match output_file t with
                             | Some output_file => remove_if_exists output_file
                             | None => ret tt
                             end s = Raise e s)).
  { destruct (output_file t); [apply remove_if_exists_frame|].
    left. exists (files s). now rewrite with_files_id. }
  destruct H1 as [[fs1 E1]|[e E1]].
  2:{ rewrite (bind_Raise _ _ _ _ _ E1). right. split; [eauto|]. exists (files s).
      now rewrite with_files_id. }
  rewrite (bind_Ret _ _ _ _ _ E1).
  destruct (remove_uploads_frame task_id ["zip"; "rar"] (with_files fs1 s)) as (fs2 & [E2|[e E2]]).
  2:{ rewrite (bind_Raise _ _ _ _ _ E2). right. eauto. }
  rewrite (bind_Ret _ _ _ _ _ E2). unfold bind, del_item, ret. cbn [tasks with_files].
  rewrite Ht. eauto 6.
Qed.

Lemma delete_task_clean_run (task_id : string) (s : state) (t : task) :
  tasks s !! task_id = Some t ->
  let zip := Py.path_join UPLOAD_DIR (task_id +:+ ".zip") in
  let rar := Py.path_join UPLOAD_DIR (task_id +:+ ".rar") in
  (forall out, output_file t = Some out -> off_tree s out = true) ->
  off_tree s zip = true ->
  off_tree s rar = true ->
  let fs := match output_file t with
            | Some out => if String.eqb out "" then files s else delete out (files s)
            | None => files s
            end in
  delete_task task_id s
  = Ret "Task deleted"
      (with_tasks (delete task_id (tasks s)) (log s)
         (with_files (delete rar (delete zip fs)) s)).
Proof.
  intros Ht zip rar Hout Hzip Hrar fs1. unfold delete_task. rewrite Ht.
  assert (E1 : match output_file t with
               | Some output_file => remove_if_exists output_file
               | None => ret tt
               end s = Ret tt (with_files fs1 s)).
  { subst fs1. destruct (output_file t) as [out|].
    - rewrite <- (remove_if_exists_run s out (files s)) by now apply Hout.
      now rewrite with_files_id.
    - unfold ret. now rewrite with_files_id. }
  rewrite (bind_Ret _ _ _ _ _ E1). cbn [remove_uploads].
  assert (E2 : remove_uploads task_id ["zip"; "rar"] (with_files fs1 s)
               = Ret tt (with_files (delete rar (delete zip fs1)) s)).
  { cbn [remove_uploads].
    rewrite (bind_Ret _ _ _ _ _ (remove_if_exists_run s zip fs1 Hzip)).
    rewrite (bind_Ret _ _ _ _ _ (remove_if_exists_run s rar _ Hrar)).
    reflexivity. }
  rewrite (bind_Ret _ _ _ _ _ E2). unfold bind, del_item, ret. cbn [tasks with_files].
  now rewrite Ht.
Qed.

(** X3. Deleting a registered task, when the recorded output path and the two
    possible upload paths are regular files or absent: the handler answers
    [Task deleted]; the record is gone and every other record is kept; the
    recorded output file and both [uploads/<id>.zip] and [uploads/<id>.rar]
    are gone and every other file is kept; the directories, so also the
    extraction directory [temp/<id>] of the task, are left as they were. *)
Theorem delete_task_removes (task_id : string) (s : state) (t : task) :
  tasks s !! task_id = Some t ->
  let zip := Py.path_join UPLOAD_DIR (task_id +:+ ".zip") in
  let rar := Py.path_join UPLOAD_DIR (task_id +:+ ".rar") in
  (forall out, output_file t = Some out -> off_tree s out = true) ->
  off_tree s zip = true ->
  off_tree s rar = true ->
  exists s',
    delete_task task_id s = Ret "Task deleted" s'
    /\ tasks s' = delete task_id (tasks s)
    /\ (forall out, output_file t = Some out -> out <> "" -> files s' !! out = None)
    /\ files s' !! zip = None
    /\ files s' !! rar = None
    /\ (forall p, output_file t <> Some p -> p <> zip -> p <> rar ->
                  files s' !! p = files s !! p)
    /\ dirs s' = dirs s
    /\ log s' = log s.
Proof.
  intros Ht zip rar Hout Hzip Hrar. subst zip rar.
  eexists. split; [now apply (delete_task_clean_run task_id s t)|].
  cbn [tasks files dirs log with_tasks with_files].
  conjs; try reflexivity.
  - intros out Ho Hne. rewrite !lookup_delete_None. right. right. rewrite Ho.
    apply String.eqb_neq in Hne. rewrite Hne. apply lookup_delete_eq.
  - rewrite lookup_delete_ne by (intros H; now apply (upload_paths_differ task_id)).
    apply lookup_delete_eq.
  - apply lookup_delete_eq.
  - intros p Hp Hz Hr. rewrite !lookup_delete_ne by congruence.
    destruct (output_file t) as [out|]; [|reflexivity].
    destruct (String.eqb out ""); [reflexivity|]. apply lookup_delete_ne. congruence.
Qed.

(** Deleting a completed task removes its result archive. *)
Lemma delete_task_removes_witness :
  let s := final_state (demo_submit [remote_completed 100] good_download 2 "flat") in
  files s !! "outputs/task-0.zip" = Some "PKdata"
  /\ exists s',
       delete_task "task-0" s = Ret "Task deleted" s'
       /\ tasks s' !! "task-0" = None
       /\ files s' !! "outputs/task-0.zip" = None.
Proof.
  intros s. split; [vm_compute; reflexivity|].
  destruct (delete_task_removes "task-0" s
              (Task "task-0" completed 100 "Complete!" "photos.zip" 0
                 (Some (Some "remote-1")) (Some "outputs/task-0.zip")))
    as (s' & E & Ht & Ho & _).
  - vm_compute; reflexivity.
  - intros out [= <-]. vm_compute; reflexivity.
  - vm_compute; reflexivity.
  - vm_compute; reflexivity.
  - exists s'. split; [exact E|]. split.
    + rewrite Ht. apply lookup_delete_eq.
    + apply Ho; [reflexivity | discriminate].
Defined.

(** X4. After a deletion that succeeded, the status endpoint, the download
    endpoint and a second deletion all answer 404 [Task not found] for that
    identifier (the second deletion changing nothing), the listing counts one
    task less, and the status of every other task is what it was. *)
Theorem deleted_task_not_found (task_id msg : string) (s s' : state) :
  delete_task task_id s = Ret msg s' ->
  msg = "Task deleted"
  /\ get_task_status s' task_id = inl (HTTPException 404 "Task not found")
  /\ download_result s' task_id = inl (HTTPException 404 "Task not found")
  /\ delete_task task_id s' = Raise (HTTPException 404 "Task not found") s'
  /\ total (list_tasks s) = S (total (list_tasks s'))
  /\ (forall j, j <> task_id -> get_task_status s' j = get_task_status s j)
  /\ dirs s' = dirs s.
Proof.
  intros E. pose proof (delete_task_run task_id s) as H. rewrite E in H.
  destruct H as (-> & [t Ht] & fs & ->).
  unfold get_task_status, download_result, delete_task, list_tasks.
  cbn [tasks dirs with_tasks with_files total].
  rewrite lookup_delete_eq. conjs; try reflexivity.
  - rewrite map_size_delete_Some by eauto.
    assert (size (tasks s) <> 0); [|lia].
    intros H0. apply map_size_empty_inv in H0. rewrite H0 in Ht. discriminate Ht.
  - intros j Hj. now rewrite lookup_delete_ne by congruence.
Qed.

(** A completed task before and after its deletion. *)
Lemma deleted_task_not_found_witness :
  let s := final_state (demo_submit [remote_completed 100] good_download 2 "flat") in
  get_task_status s "task-0"
  = inr (TaskStatus.Make "task-0" "completed" 100 "Complete!" (Some "/download/task-0"))
  /\ get_task_status (final_state (delete_task "task-0" s)) "task-0"
     = inl (HTTPException 404 "Task not found").
Proof.
  intros s. split; [vm_compute; reflexivity|].
  refine (proj1 (proj2 (deleted_task_not_found "task-0" "Task deleted" s
                          (final_state (delete_task "task-0" s)) _))).
  vm_compute; reflexivity.
Defined.

(** X5. A deletion that raises leaves the registry and the directories as
    they were: the task is unregistered only by the last step of the handler.
    For an identifier that is not registered the error is 404 [Task not
    found] and nothing at all is changed. *)
Theorem failed_deletion_keeps_task (task_id : string) (e : exn) (s s' : state) :
  delete_task task_id s = Raise e s' ->
  tasks s' = tasks s
  /\ dirs s' = dirs s
  /\ (tasks s !! task_id = None -> e = HTTPException 404 "Task not found" /\ s' = s).
Proof.
  intros E. pose proof (delete_task_run task_id s) as H. rewrite E in H.
  destruct H as [(Hn & -> & ->)|([t Ht] & fs & ->)].
  - auto.
  - cbn [tasks dirs with_files]. conjs; try reflexivity. intros Hn. rewrite Hn in Ht.
    discriminate Ht.
Qed.

(** Deleting an identifier that was never issued. *)
Lemma failed_deletion_keeps_task_witness :
  delete_task "task-1" (demo_uploaded "flat")
  = Raise (HTTPException 404 "Task not found") (demo_uploaded "flat")
  /\ is_Some (tasks (demo_uploaded "flat") !! "task-0").
Proof.
  assert (E : delete_task "task-1" (demo_uploaded "flat")
              = Raise (HTTPException 404 "Task not found")
                  (final_state (delete_task "task-1" (demo_uploaded "flat")))).
  { vm_compute; reflexivity. }
  destruct (failed_deletion_keeps_task _ _ _ _ E) as (_ & _ & H).
  destruct H as [_ Hs]; [vm_compute; reflexivity|].
  split; [now rewrite Hs in E | vm_compute; eauto].
Defined.

Lemma process_task_unregistered (w : world) (fuel : nat) (task_id archive_path : string)
    (s : state) :
  tasks s !! task_id = None ->
  process_task w fuel task_id archive_path s = Raise (KeyError task_id) s.
Proof.
  intros Hn. unfold process_task, try_except, process_task_body.
  unfold bind at 1. unfold set_item at 1. rewrite Hn.
  unfold bind, set_item. now rewrite Hn.
Qed.

(** X6. Submitting an archive under a fresh identifier and deleting the task
    before its background work has run restores the registry and the files
    (when nothing lay at the two upload paths before); the background task
    stays queued, and when it runs it finds no record: the [KeyError] of its
    first assignment, raised again by the assignment in its handler, leaves
    [process_task], with nothing changed. *)
Theorem submit_then_delete (w : world) (file : UploadFile) (s s1 : state)
    (response : TaskResponse.t) :
  upload_images w file s = Ret response s1 ->
  let id := TaskResponse.task_id response in
  let zip := Py.path_join UPLOAD_DIR (id +:+ ".zip") in
  let rar := Py.path_join UPLOAD_DIR (id +:+ ".rar") in
  tasks s !! id = None ->
  files s !! zip = None ->
  files s !! rar = None ->
  off_tree s zip = true ->
  off_tree s rar = true ->
  exists archive_path s2,
    delete_task id s1 = Ret "Task deleted" s2
    /\ tasks s2 = tasks s
    /\ files s2 = files s
    /\ dirs s2 = dirs s
    /\ background s2 = background s ++ [(id, archive_path)]
    /\ forall fuel,
         process_task w fuel id archive_path s2 = Raise (KeyError id) s2.
Proof.
  intros E id zip rar Hfresh Hz Hr Oz Or.
  destruct (Py.endswith_any (Py.lower (uf_filename file)) [".zip"; ".rar"]) eqn:H.
  2:{ unfold upload_images in E. rewrite H in E. discriminate E. }
  rewrite (upload_images_run w file s H) in E. injection E as <- <-.
  cbn [TaskResponse.task_id] in *.
  destruct (accepted_extension _ H) as [He _].
  set (ext := Py.last_item (Py.split "." (Py.lower (uf_filename file)))) in *.
  set (path := Py.path_join UPLOAD_DIR (id +:+ "." +:+ ext)).
  set (s1 := with_background _ _).
  pose proof (delete_task_clean_run id s1
                (Task id queued 0 "Task queued" (uf_filename file) (clock s) None None)
                (lookup_insert_eq _ _ _)) as E2.
  cbv zeta in E2. cbn [output_file] in E2.
  specialize (E2 (fun out H => match H with end) Oz Or).
  assert (Ht2 : delete id (tasks s1) = tasks s).
  { subst s1. cbn [tasks with_background write with_tasks]. now apply delete_insert_id. }
  eexists path, _. split; [exact E2|].
  cbn [tasks files dirs background log with_tasks with_files].
  split; [exact Ht2|]. split.
  { apply map_eq. intros p. fold zip rar.
    destruct (decide (p = rar)) as [->|Hpr]; [now rewrite lookup_delete_eq, Hr|].
    rewrite lookup_delete_ne by congruence.
    destruct (decide (p = zip)) as [->|Hpz]; [now rewrite lookup_delete_eq, Hz|].
    rewrite lookup_delete_ne by congruence.
    subst s1. cbn [files with_background write with_tasks with_files].
    apply lookup_insert_ne. subst path.
    destruct He as [-> | ->]; intros <-; [apply Hpz | apply Hpr]; reflexivity. }
  split; [reflexivity|]. split; [reflexivity|].
  intros fuel. apply process_task_unregistered.
  cbn [tasks with_tasks with_files]. rewrite Ht2. exact Hfresh.
Qed.

(** [photos.zip] submitted to an empty server and deleted at once. *)
Lemma submit_then_delete_witness :
  exists s2,
    delete_task "task-0" (demo_uploaded "flat") = Ret "Task deleted" s2
    /\ tasks s2 = ∅ /\ files s2 = ∅
    /\ background s2 = [("task-0", "uploads/task-0.zip")]
    /\ process_task (demo_world [] good_download) 3 "task-0" "uploads/task-0.zip" s2
       = Raise (KeyError "task-0") s2.
Proof.
  destruct (submit_then_delete (demo_world [] good_download) (photos_zip "flat") empty_state
              (demo_uploaded "flat")
              (TaskResponse.Make "task-0" "queued" "Task created. Check /status/{task_id}")
              eq_refl eq_refl eq_refl eq_refl eq_refl eq_refl)
    as (p & s2 & E & Ht & Hf & _ & Hb & Hk).
  cbn [TaskResponse.task_id] in E, Hb, Hk.
  exists s2. split; [exact E|]. split; [exact Ht|]. split; [exact Hf|].
  assert (p = "uploads/task-0.zip") as ->.
  { pose proof (delete_task_run "task-0" (demo_uploaded "flat")) as R. rewrite E in R.
    destruct R as (_ & _ & fs & Hs2).
    assert (Hb' : background s2 = [("task-0", "uploads/task-0.zip")]).
    { rewrite Hs2. vm_compute. reflexivity. }
    rewrite Hb' in Hb. vm_compute in Hb. now injection Hb as <-. }
  split; [exact Hb | apply Hk].
Defined.

(** ** Unpacking (src/utils, extract_archive) *)

(** X7. For a path whose extension (the text after the last dot of the
    lower-cased path) is neither [zip] nor [rar], [extract_archive] raises
    [Extraction failed: Unsupported archive format: <extension>] and changes
    nothing. *)
Theorem unsupported_archive_format (w : world) (archive_path extract_dir : string)
    (s : state) :
  let file_extension := Py.last_item (Py.split "." (Py.lower archive_path)) in
  file_extension <> "zip" ->
  file_extension <> "rar" ->
  extract_archive w archive_path extract_dir s
  = Raise (PyException ("Extraction failed: Unsupported archive format: " +:+ file_extension)) s.
Proof.
  intros ext Hz Hr. unfold extract_archive, try_except, extract_archive_body. fold ext.
  apply String.eqb_neq in Hz, Hr. rewrite Hz, Hr. reflexivity.
Qed.

(** The extension is compared in lower case. *)
Lemma unsupported_archive_format_witness :
  extract_archive (demo_world [] good_download) "uploads/Photos.TAR" "temp/t" empty_state
  = Raise (PyException "Extraction failed: Unsupported archive format: tar") empty_state.
Proof.
  apply (unsupported_archive_format (demo_world [] good_download) "uploads/Photos.TAR"
           "temp/t" empty_state); discriminate.
Defined.

(** X8. For a [.zip] path at which nothing exists, the [FileNotFoundError] of
    [zipfile] is caught by the clause meant for a missing [unrar] program:
    the error reads [unrar is not installed ...], and nothing is changed. *)
Theorem missing_zip_reports_unrar (w : world) (archive_path extract_dir : string)
    (s : state) :
  Py.last_item (Py.split "." (Py.lower archive_path)) = "zip" ->
  os_path_exists s archive_path = false ->
  extract_archive w archive_path extract_dir s
  = Raise (PyException unrar_not_installed) s.
Proof.
  intros He Hx. unfold extract_archive, try_except, extract_archive_body. rewrite He.
  cbn [String.eqb Ascii.eqb Bool.eqb]. 
  assert (files s !! archive_path = None) as ->; [|reflexivity].
  unfold os_path_exists, is_regular_file in Hx.
  destruct (files s !! archive_path) eqn:E; [|reflexivity].
  rewrite bool_decide_true in Hx by eauto. cbn [orb] in Hx.
  rewrite andb_true_r in Hx. apply negb_false_iff, String.eqb_eq in Hx. subst.
  discriminate He.
Qed.

(** A zip archive that is not on disk. *)
Lemma missing_zip_reports_unrar_witness :
  extract_archive (demo_world [] good_download) "uploads/gone.zip" "temp/t" empty_state
  = Raise (PyException unrar_not_installed) empty_state.
Proof.
  apply (missing_zip_reports_unrar (demo_world [] good_download) "uploads/gone.zip" "temp/t"
           empty_state); reflexivity.
Defined.

(** X9. For a [.rar] path: without the [unrar] program the error is [unrar is
    not installed ...] and nothing is changed; with it, the return code 0
    gives [True], and any other return code the error [Extraction failed:
    RAR extraction failed: <stderr>]; either way what [unrar] unpacked is
    below the extraction directory. *)
Theorem rar_extraction (w : world) (archive_path extract_dir : string) (s : state) :
  Py.last_item (Py.split "." (Py.lower archive_path)) = "rar" ->
  match unrar w with
  | None =>
      extract_archive w archive_path extract_dir s = Raise (PyException unrar_not_installed) s
  | Some run =>
      let result := run (files s !! archive_path) (default [] (dirs s !! extract_dir)) in
      let s' := with_dirs (<[extract_dir := rar_tree result]> (dirs s)) s in
      extract_archive w archive_path extract_dir s
      = if (returncode result =? 0)%Z then Ret true s'
        else Raise (PyException ("Extraction failed: RAR extraction failed: "
                                 +:+ stderr result)) s'
  end.
Proof.
  intros He. unfold extract_archive, try_except, extract_archive_body. rewrite He.
  cbn [String.eqb Ascii.eqb Bool.eqb].
  destruct (unrar w) as [run|]; [|reflexivity].
  cbv zeta. destruct (returncode _ =? 0)%Z; reflexivity.
Qed.

(** A rar archive on a machine without [unrar]. *)
Lemma rar_extraction_witness :
  extract_archive (demo_world [] good_download) "uploads/task-0.RAR" "temp/t" empty_state
  = Raise (PyException unrar_not_installed) empty_state.
Proof.
  apply (rar_extraction (demo_world [] good_download) "uploads/task-0.RAR" "temp/t"
           empty_state). reflexivity.
Defined.

(** ** The upload to the remote service (src/utils, upload_images_to_webodm) *)

Lemma collect_images_ret (w : world) (image_folder : string) (filenames : list string) :
  forall (files_list l : list (string * string)) (s s' : state),
    collect_images w image_folder filenames files_list s = Ret l s' ->
    s' = s
    /\ l = files_list
           ++ ((fun filename =>
                  (filename, mime_type_of w (Py.path_join image_folder filename) filename))
                 <$> List.filter is_image filenames).
Proof.
  induction filenames as [|filename rest IH]; intros files_list l s s' E;
    cbn [collect_images List.filter] in *.
  - injection E as <- <-. now rewrite app_nil_r.
  - destruct (is_image filename); [|now apply IH].
    unfold bind, open_rb in E.
    destruct (bool_decide _); [discriminate E|].
    destruct (is_regular_file _ _); [|discriminate E].
    apply IH in E as [-> ->]. split; [reflexivity|]. now rewrite <- app_assoc.
Qed.

Lemma collect_images_none (w : world) (image_folder : string) (filenames : list string)
    (files_list : list (string * string)) (s : state) :
  List.filter is_image filenames = [] ->
  collect_images w image_folder filenames files_list s = Ret files_list s.
Proof.
  induction filenames as [|filename rest IH]; cbn [collect_images List.filter];
    [reflexivity|].
  destruct (is_image filename); [discriminate | exact IH].
Qed.

Lemma upload_no_images (w : world) (image_folder task_name : string) (names : list string)
    (s : state) :
  os_listdir image_folder s = Ret names s ->
  List.filter is_image names = [] ->
  upload_images_to_webodm w image_folder task_name s
  = Ret (None, Some "No images found") s.
Proof.
  intros E Hn. unfold upload_images_to_webodm.
  rewrite (bind_Ret _ _ _ _ _ E).
  rewrite (bind_Ret _ _ _ _ _ (collect_images_none w image_folder names [] s Hn)).
  reflexivity.
Qed.

(** X10. Whenever [upload_images_to_webodm] returns, it has changed nothing,
    and its result is determined by the listing of the folder: the files sent
    are exactly the listed names with an image extension, in listing order,
    each with its MIME type.  With no such name the result is [(None, "No
    images found")]; otherwise the result follows the response: the uuid
    with no error on a 200 with a JSON body, [Error: <code>] on another
    status code, the exception's text on a failure.  An error is never
    accompanied by an identifier. *)
Theorem uploaded_files_are_the_images (w : world) (image_folder task_name : string)
    (s s' : state) (r : option string * option string) :
  upload_images_to_webodm w image_folder task_name s = Ret r s' ->
  s' = s
  /\ exists names,
       os_listdir image_folder s = Ret names s
       /\ let files_list :=
            (fun filename =>
               (filename, mime_type_of w (Py.path_join image_folder filename) filename))
              <$> List.filter is_image names in
          (files_list = [] -> r = (None, Some "No images found"))
          /\ (files_list <> [] ->
              match requests_post w files_list task_name with
              | PostRaise msg => r = (None, Some msg)
              | PostResp status_code body =>
                  if (status_code =? 200)%Z then
                    match body with
                    | PostJson uuid => r = (uuid, None)
                    | PostBadJson msg => r = (None, Some msg)
                    end
                  else r = (None, Some ("Error: " +:+ pretty status_code))
              end)
          /\ (is_Some (snd r) -> fst r = None).
Proof.
  unfold upload_images_to_webodm. intros E.
  destruct (os_listdir_run image_folder s) as [[names E1]|[e E1]].
  2:{ rewrite (bind_Raise _ _ _ _ _ E1) in E. discriminate E. }
  rewrite (bind_Ret _ _ _ _ _ E1) in E.
  destruct (collect_images_run w image_folder names [] s) as [[l E2]|[e E2]].
  2:{ rewrite (bind_Raise _ _ _ _ _ E2) in E. discriminate E. }
  rewrite (bind_Ret _ _ _ _ _ E2) in E.
  apply collect_images_ret in E2 as [_ Hl]. cbn [app] in Hl. subst l.
  set (files_list := _ <$> _) in *.
  assert (Hs : s' = s /\ (files_list = [] -> r = (None, Some "No images found"))
               /\ (files_list <> [] ->
                   match requests_post w files_list task_name with
                   | PostRaise msg => r = (None, Some msg)
                   | PostResp status_code body =>
                       if (status_code =? 200)%Z then
                         match body with
                         | PostJson uuid => r = (uuid, None)
                         | PostBadJson msg => r = (None, Some msg)
                         end
                       else r = (None, Some ("Error: " +:+ pretty status_code))
                   end)
               /\ (is_Some (snd r) -> fst r = None)).
  { destruct files_list as [|x l].
    - injection E as <- <-. conjs; [reflexivity | reflexivity | congruence | reflexivity].
    - destruct (requests_post w (x :: l) task_name) as [msg|code body].
      + injection E as <- <-. conjs; [reflexivity | discriminate | reflexivity | reflexivity].
      + destruct (code =? 200)%Z; [destruct body|]; injection E as <- <-;
          (conjs; [reflexivity | discriminate | reflexivity |]);
          cbn [fst snd]; try reflexivity.
        intros [? [=]]. }
  destruct Hs as (-> & H1 & H2 & H3). split; [reflexivity|]. exists names. auto.
Qed.

(** The folder of an extracted archive: the text file is not sent. *)
Lemma uploaded_files_are_the_images_witness :
  let s := final_state (demo_submit [] good_download 0 "flat") in
  os_listdir "temp/task-0" s = Ret ["a.jpg"; "b.JPG"; "notes.txt"] s
  /\ requests_post (demo_world [] good_download)
       [("a.jpg", "image/jpeg"); ("b.JPG", "image/jpeg")] "Task-task-0"
     = PostResp 200 (PostJson (Some "remote-1"))
  /\ upload_images_to_webodm (demo_world [] good_download) "temp/task-0" "Task-task-0" s
     = Ret (Some "remote-1", None) s.
Proof.
  intros s.
  assert (E : upload_images_to_webodm (demo_world [] good_download) "temp/task-0"
                "Task-task-0" s = Ret (Some "remote-1", None) s) by (vm_compute; reflexivity).
  destruct (uploaded_files_are_the_images _ _ _ _ _ _ E) as (_ & names & El & _).
  split; [|split; [reflexivity | exact E]].
  rewrite El. f_equal. vm_compute in El. now injection El as <-.
Defined.

(** X11. For a name the upload loop accepts as an image, when
    [mimetypes.guess_type] has no answer, the fallback gives [image/jpeg]
    exactly for the names ending in [.jpg] or [.jpeg], and otherwise
    [image/png] or [image/tiff]: the last branch,
    [application/octet-stream], is never taken. *)
Theorem image_mime_type (w : world) (filepath filename : string) :
  is_image filename = true ->
  guess_type w filepath = None ->
  let mime_type := mime_type_of w filepath filename in
  (mime_type = "image/jpeg"
   <-> has_extension filename ".jpg" \/ has_extension filename ".jpeg")
  /\ (mime_type = "image/png" \/ mime_type = "image/tiff" \/ mime_type = "image/jpeg").
Proof.
  unfold is_image, image_extensions, mime_type_of, Py.endswith_any. cbn [existsb].
  intros Hi ->. rewrite <- !endswith_lower_iff.
  destruct (Py.endswith (Py.lower filename) ".jpg") eqn:E1;
    destruct (Py.endswith (Py.lower filename) ".jpeg") eqn:E2;
    destruct (Py.endswith (Py.lower filename) ".png") eqn:E3;
    destruct (Py.endswith (Py.lower filename) ".tif") eqn:E4;
    destruct (Py.endswith (Py.lower filename) ".tiff") eqn:E5;
    cbn [orb] in *; try discriminate Hi; cbv zeta;
    (split; [split; [intros H; try discriminate H; auto | intros [H|H]; congruence] | auto]).
Qed.

(** Upper-case extensions. *)
Lemma image_mime_type_witness :
  mime_type_of (demo_world [] good_download) "temp/task-0/b.JPG" "b.JPG" = "image/jpeg"
  /\ mime_type_of (demo_world [] good_download) "temp/task-0/c.TIF" "c.TIF" = "image/tiff".
Proof.
  split.
  - apply (image_mime_type (demo_world [] good_download) "temp/task-0/b.JPG" "b.JPG");
      [reflexivity | reflexivity |].
    left. exists "b", ".JPG". split; reflexivity.
  - destruct (image_mime_type (demo_world [] good_download) "temp/task-0/c.TIF" "c.TIF")
      as [_ [H|[H|H]]]; try reflexivity; discriminate H.
Defined.

(** ** The download from the remote service (src/utils, download_from_webodm) *)

(** X12. [download_from_webodm] never raises and touches nothing but the file
    at the output path.  It returns [True] only when the response was a 200
    whose stream arrived whole, and the file then holds the chunks in order;
    on any other status code it returns [False] and changes nothing. *)
Theorem download_writes_only_the_output (w : world) (webodm_task_id : option string)
    (output_path : string) (s : state) :
  exists (ok : bool) (s' : state),
    download_from_webodm w webodm_task_id output_path s = Ret ok s'
    /\ tasks s' = tasks s /\ log s' = log s /\ dirs s' = dirs s
    /\ (forall p, p <> output_path -> files s' !! p = files s !! p)
    /\ (ok = true ->
        exists chunks,
          requests_get_download w webodm_task_id = DlResp 200 chunks false
          /\ files s' !! output_path = Some (String.concat "" chunks))
    /\ (forall code chunks broken,
          requests_get_download w webodm_task_id = DlResp code chunks broken ->
          code <> 200%Z -> ok = false /\ s' = s).
Proof.
  unfold download_from_webodm.
  destruct (requests_get_download w webodm_task_id) as [|code chunks broken].
  - exists false, s. conjs; try reflexivity; [discriminate | intros ? ? ? [=]].
  - destruct (code =? 200)%Z eqn:Hc.
    + apply Z.eqb_eq in Hc as ->. destruct (bool_decide _).
      * exists false, s. conjs; try reflexivity; [discriminate |].
        intros ? ? ? [= <- _ _] H. now destruct H.
      * eexists _, _. split; [reflexivity|]. cbn [tasks log dirs files with_files].
        conjs; try reflexivity.
        -- intros p Hp. now apply lookup_insert_ne.
        -- intros Hb. apply negb_true_iff in Hb as ->. exists chunks.
           split; [reflexivity | apply lookup_insert_eq].
        -- intros ? ? ? [= <- _ _] H. now destruct H.
    + exists false, s. conjs; try reflexivity; [discriminate | intros; auto].
Qed.

(** X13. When the stream of the result download breaks, the task ends
    [failed] with the message [Download failed] and without an output path
    in its record, while the chunks that had arrived stay on disk at
    [outputs/<id>.zip]; since the record does not name that file, deleting
    the task afterwards leaves it there. *)
Theorem broken_download_leaves_partial_file (w : world) (task_id : string)
    (wid : option string) (s : state) (q : task) (chunks : list string) :
  tasks s !! task_id = Some q ->
  output_file q = None ->
  requests_get_download w wid = DlResp 200 chunks true ->
  let out := Py.path_join OUTPUT_DIR (task_id +:+ ".zip") in
  resolve_dir s out = None ->
  off_tree s (Py.path_join UPLOAD_DIR (task_id +:+ ".zip")) = true ->
  off_tree s (Py.path_join UPLOAD_DIR (task_id +:+ ".rar")) = true ->
  exists s' t' s2,
    download_results w task_id wid s = Ret tt s'
    /\ tasks s' !! task_id = Some t'
    /\ status t' = failed
    /\ message t' = "Download failed"
    /\ output_file t' = None
    /\ files s' !! out = Some (String.concat "" chunks)
    /\ delete_task task_id s' = Ret "Task deleted" s2
    /\ files s2 !! out = Some (String.concat "" chunks).
Proof.
  intros Hq Hnone Hdl out Hres Oz Or.
  unfold download_results, bind. do 2 registry_write.
  unfold download_from_webodm. rewrite Hdl. cbn [Z.eqb Pos.eqb].
  change (resolve_dir _ (Py.path_join OUTPUT_DIR (task_id +:+ ".zip")))
    with (resolve_dir s out).
  rewrite Hres. rewrite bool_decide_false by (intros [? [=]]). cbn [negb].
  do 2 registry_write.
  eexists _, _, _. split; [reflexivity|].
  split; [apply lookup_insert_eq|]. cbn [status message output_file set_status set_message].
  split; [reflexivity|]. split; [reflexivity|]. split; [exact Hnone|].
  split; [apply lookup_insert_eq|].
  match goal with |- delete_task _ ?s1 = _ /\ _ =>
    pose proof (delete_task_clean_run task_id s1 _ (lookup_insert_eq _ _ _)) as E end.
  cbv zeta in E. cbn [output_file set_status set_message] in E. rewrite Hnone in E.
  specialize (E (fun out H => match H with end) Oz Or).
  split; [exact E|].
  cbn [files with_tasks with_files write].
  rewrite !lookup_delete_ne by (unfold out; discriminate).
  apply lookup_insert_eq.
Qed.

(** A download that breaks after two chunks. *)
Lemma broken_download_leaves_partial_file_witness :
  let w := demo_world [] (DlResp 200 ["PK"; "da"] true) in
  exists s' s2,
    download_results w "task-0" (Some "remote-1") (demo_uploaded "flat") = Ret tt s'
    /\ (status <$> tasks s' !! "task-0") = Some failed
    /\ delete_task "task-0" s' = Ret "Task deleted" s2
    /\ files s2 !! "outputs/task-0.zip" = Some "PKda".
Proof.
  intros w.
  destruct (broken_download_leaves_partial_file w "task-0" (Some "remote-1")
              (demo_uploaded "flat")
              (Task "task-0" queued 0 "Task queued" "photos.zip" 0 None None)
              ["PK"; "da"] eq_refl eq_refl eq_refl eq_refl eq_refl eq_refl)
    as (s' & t' & s2 & E & Ht & Hs & _ & _ & _ & Ed & Hf).
  exists s', s2. split; [exact E|]. split; [rewrite Ht; cbn; now rewrite Hs|].
  split; [exact Ed | exact Hf].
Defined.

(** ** Status and download (routes.py, get_task_status and download_result) *)

(** X14. The status endpoint and the download endpoint agree: the status
    response carries the download URL [/download/<id>] exactly when its
    status is [completed], which is exactly when the download endpoint does
    not answer 400; and the detail of that 400 is [Status: ] followed by the
    status the status endpoint reports. *)
Theorem download_url_iff_downloadable (s : state) (task_id : string) (st : TaskStatus.t) :
  get_task_status s task_id = inr st ->
  (TaskStatus.download_url st = None
   /\ TaskStatus.status st <> "completed"
   /\ download_result s task_id
      = inl (HTTPException 400 ("Status: " +:+ TaskStatus.status st)))
  \/ (TaskStatus.download_url st = Some ("/download/" +:+ task_id)
      /\ TaskStatus.status st = "completed"
      /\ forall detail, download_result s task_id <> inl (HTTPException 400 detail)).
Proof.
  unfold get_task_status, download_result.
  destruct (tasks s !! task_id) as [t|]; [|discriminate].
  intros [= <-]. cbn [TaskStatus.download_url TaskStatus.status].
  destruct (status t) eqn:Hst; cbn;
    try (left; conjs; [reflexivity | discriminate | reflexivity]).
  right. conjs; try reflexivity. intros detail.
  destruct (output_file t) as [out|]; [|discriminate].
  destruct (_ || _)%bool; discriminate.
Qed.

(** A task that is still queued. *)
Lemma download_url_iff_downloadable_witness :
  download_result (demo_uploaded "flat") "task-0"
  = inl (HTTPException 400 "Status: queued").
Proof.
  destruct (download_url_iff_downloadable (demo_uploaded "flat") "task-0"
              (TaskStatus.Make "task-0" "queued" 0 "Task queued" None) eq_refl)
    as [(_ & _ & H)|(H & _)]; [exact H | discriminate H].
Defined.

(** ** The polling loop (src/utils, process_task and check_webodm_task_status) *)

Lemma download_results_time (w : world) (task_id : string) (wid : option string)
    (s : state) (q : task) :
  tasks s !! task_id = Some q ->
  exists s', download_results w task_id wid s = Ret tt s'
             /\ clock s' = clock s /\ polled s' = polled s.
Proof.
  intros Hq. unfold download_results, bind.
  do 2 registry_write.
  match goal with
  | |- context [download_from_webodm w wid ?o ?s2] =>
      destruct (download_from_webodm_run w wid o s2) as (ok & fs & -> & _ & _)
  end.
  destruct ok.
  - do 4 registry_write. eexists. split; [reflexivity |]. now split.
  - do 2 registry_write. eexists. split; [reflexivity |]. now split.
Qed.

(** X15. The polling loop sends one status request per iteration and is left
    at the first answer that carries one of the codes 40, 30 and 50, and at
    no earlier one: if the n-th answer (counting from 0) is the first such
    answer, the loop has sent n+1 requests and slept n times ten seconds
    when it returns; as long as no such answer has come it is still polling,
    having slept ten seconds after every request.  No exception leaves the
    loop of a registered task. *)
Theorem poll_loop_leaves_at_first_terminal_answer (w : world) (task_id : string)
    (wid : option string) (fuel : nat) :
  forall (s : state) (t : task),
    tasks s !! task_id = Some t ->
    let answer n := parse_info (requests_get_info w wid (polled s + n)) in
    match poll_loop w fuel task_id wid s with
    | Ret _ s' =>
        exists n, n < fuel
                  /\ leaves_loop (answer n) = true
                  /\ (forall k, k < n -> leaves_loop (answer k) = false)
                  /\ polled s' = polled s + S n
                  /\ clock s' = (clock s + 10 * Z.of_nat n)%Z
    | Polling s' =>
        (forall k, k < fuel -> leaves_loop (answer k) = false)
        /\ polled s' = polled s + fuel
        /\ clock s' = (clock s + 10 * Z.of_nat fuel)%Z
    | Raise _ _ => False
    end.
Proof.
  induction fuel as [|fuel IH]; intros s t Ht answer.
  - cbn. conjs; [intros k Hk; lia | lia | lia].
  - assert (Hrec : forall s2 t2,
              tasks s2 !! task_id = Some t2 ->
              polled s2 = S (polled s) -> clock s2 = (clock s + 10)%Z ->
              leaves_loop (answer 0) = false ->
              match poll_loop w fuel task_id wid s2 with
              | Ret _ s' =>
                  exists n, n < S fuel
                            /\ leaves_loop (answer n) = true
                            /\ (forall k, k < n -> leaves_loop (answer k) = false)
                            /\ polled s' = polled s + S n
                            /\ clock s' = (clock s + 10 * Z.of_nat n)%Z
              | Polling s' =>
                  (forall k, k < S fuel -> leaves_loop (answer k) = false)
                  /\ polled s' = polled s + S fuel
                  /\ clock s' = (clock s + 10 * Z.of_nat (S fuel))%Z
              | Raise _ _ => False
              end).
    { intros s2 t2 Ht2 Hp Hc H0. specialize (IH s2 t2 Ht2). cbv zeta in IH.
      assert (Hshift : forall k, parse_info (requests_get_info w wid (polled s2 + k))
                                 = answer (S k)).
      { intros k. unfold answer. do 2 f_equal. lia. }
      destruct (poll_loop w fuel task_id wid s2) as [[] s'| |s'].
      - destruct IH as (n & Hn & Hl & Hb & Hq & Hk). exists (S n).
        rewrite Hshift in Hl. conjs; [lia | exact Hl | | lia | lia].
        intros [|k] Hlt; [exact H0|]. rewrite <- Hshift. apply Hb. lia.
      - exact IH.
      - destruct IH as (Hb & Hq & Hk). conjs; [| lia | lia].
        intros [|k] Hlt; [exact H0|]. rewrite <- Hshift. apply Hb. lia. }
    assert (H0 : answer 0 = parse_info (requests_get_info w wid (polled s))).
    { unfold answer. now rewrite Nat.add_0_r. }
    cbn [poll_loop]. unfold bind at 1. unfold check_webodm_task_status.
    rewrite <- H0. destruct (answer 0) as [[code p]|] eqn:Ha.
    + cbn [sd_progress sd_status_code]. step_write.
      assert (Hleave : forall s', polled s' = S (polled s) -> clock s' = clock s ->
                terminal_code code = true ->
                exists n, n < S fuel
                          /\ leaves_loop (answer n) = true
                          /\ (forall k, k < n -> leaves_loop (answer k) = false)
                          /\ polled s' = polled s + S n
                          /\ clock s' = (clock s + 10 * Z.of_nat n)%Z).
      { intros s' Hp Hc Hterm. exists 0. rewrite Ha. cbn [leaves_loop sd_status_code].
        conjs; [lia | exact Hterm | intros k Hk; lia | lia | lia]. }
      destruct (code =? 40)%Z eqn:E40.
      { match goal with |- context [download_results w task_id wid ?s2] =>
          destruct (download_results_time w task_id wid s2 (set_progress p t))
            as (s' & -> & Hc & Hp); [apply tasks_write|] end.
        apply Hleave; [rewrite Hp | rewrite Hc |]; try reflexivity.
        unfold terminal_code. now rewrite E40. }
      destruct (code =? 30)%Z eqn:E30.
      { unfold bind. do 2 registry_write. apply Hleave; try reflexivity.
        unfold terminal_code. now rewrite E30, orb_true_r. }
      destruct (code =? 50)%Z eqn:E50.
      { unfold bind. do 2 registry_write. apply Hleave; try reflexivity.
        unfold terminal_code. now rewrite E50, orb_true_r. }
      unfold bind at 1. unfold time_sleep.
      eapply Hrec; [apply tasks_write | reflexivity | reflexivity |].
      cbn [leaves_loop sd_status_code]. unfold terminal_code. now rewrite E40, E30, E50.
    + unfold bind at 1. unfold time_sleep.
      eapply Hrec; [exact Ht | reflexivity | reflexivity | reflexivity].
Qed.

(** One failed request, then the code 40. *)
Lemma poll_loop_leaves_at_first_terminal_answer_witness :
  let r := poll_loop (demo_world [GetRaise; remote_completed 100] good_download) 2 "task-0"
             (Some "remote-1") (demo_uploaded "flat") in
  r = Ret tt (final_state r)
  /\ polled (final_state r) = 2
  /\ clock (final_state r) = 10%Z.
Proof.
  intros r.
  assert (E : r = Ret tt (final_state r)) by (vm_compute; reflexivity).
  split; [exact E|].
  pose proof (poll_loop_leaves_at_first_terminal_answer
                (demo_world [GetRaise; remote_completed 100] good_download) "task-0"
                (Some "remote-1") 2 (demo_uploaded "flat")
                (Task "task-0" queued 0 "Task queued" "photos.zip" 0 None None) eq_refl) as H.
  cbv zeta in H. fold r in H. rewrite E in H.
  destruct H as (n & Hn & Hl & _ & Hp & Hc).
  destruct n as [|[|n]]; [discriminate Hl | | lia].
  split; [exact Hp | exact Hc].
Defined.

(** X16. Answers with a 200 that lack something.  A body with a status code
    but without [progress] sets the progress of the record to 0, whatever it
    was; a body without a status code, or one that is not JSON, is treated
    like no answer at all: the record is left alone and the loop sleeps and
    asks again. *)
Theorem incomplete_answers (w : world) (fuel : nat) (task_id : string)
    (wid : option string) (s : state) (t : task) :
  tasks s !! task_id = Some t ->
  let asked := with_polled (S (polled s)) s in
  (forall code, requests_get_info w wid (polled s) = GetResp 200 (InfoJson (Some code) None) ->
                terminal_code code = false ->
                poll_loop w (S fuel) task_id wid s
                = poll_loop w fuel task_id wid
                    (with_clock (clock s + 10) (write task_id (set_progress 0 t) asked)))
  /\ (forall p, requests_get_info w wid (polled s) = GetResp 200 (InfoJson None p) ->
                poll_loop w (S fuel) task_id wid s
                = poll_loop w fuel task_id wid (with_clock (clock s + 10) asked))
  /\ (requests_get_info w wid (polled s) = GetResp 200 InfoBadJson ->
      poll_loop w (S fuel) task_id wid s
      = poll_loop w fuel task_id wid (with_clock (clock s + 10) asked)).
Proof.
  intros Ht asked. conjs.
  - intros code E Hterm.
    apply (poll_loop_running w task_id wid fuel s t code 0 Ht); [|exact Hterm].
    now rewrite E.
  - intros p E. cbn [poll_loop]. unfold bind at 1. unfold check_webodm_task_status.
    rewrite E. reflexivity.
  - intros E. cbn [poll_loop]. unfold bind at 1. unfold check_webodm_task_status.
    rewrite E. reflexivity.
Qed.

(** Progress falls from 80 to 0 on an answer without [progress]. *)
Lemma incomplete_answers_witness :
  let w := demo_world [GetResp 200 (InfoJson (Some 20%Z) None)] good_download in
  let s := writes "task-0"
             [set_progress 80 (Task "task-0" processing 0 "Processing orthomosaic..."
                                 "photos.zip" 0 (Some (Some "remote-1")) None)]
             (demo_uploaded "flat") in
  (progress <$> tasks s !! "task-0") = Some 80%Z
  /\ (progress <$> tasks (final_state (poll_loop w 1 "task-0" (Some "remote-1") s)) !! "task-0")
     = Some 0%Z.
Proof.
  intros w s. split; [vm_compute; reflexivity|].
  destruct (incomplete_answers w 0 "task-0" (Some "remote-1") s
              (set_progress 80 (Task "task-0" processing 0 "Processing orthomosaic..."
                                  "photos.zip" 0 (Some (Some "remote-1")) None)) eq_refl)
    as (H & _).
  rewrite (H 20%Z eq_refl eq_refl). vm_compute. reflexivity.
Defined.

(** ** Whole runs (src/utils, process_task) *)

(** X17. [process_task] lets an exception escape exactly when the task is not
    registered: then it is the [KeyError] of the identifier and nothing is
    changed; for a registered task no exception ever leaves it. *)
Theorem process_task_raises_iff_unregistered (w : world) (fuel : nat)
    (task_id archive_path : string) (s : state) :
  (tasks s !! task_id = None ->
   process_task w fuel task_id archive_path s = Raise (KeyError task_id) s)
  /\ (is_Some (tasks s !! task_id) ->
      exists s', process_task w fuel task_id archive_path s = Ret tt s'
                 \/ process_task w fuel task_id archive_path s = Polling s').
Proof.
  split; [apply process_task_unregistered|].
  intros [t0 Ht0]. now apply (process_task_no_exception w fuel task_id archive_path s t0).
Qed.

(** A background task for an identifier that is not registered. *)
Lemma process_task_raises_iff_unregistered_witness :
  process_task (demo_world [] good_download) 3 "task-7" "uploads/task-7.zip"
    (demo_uploaded "flat")
  = Raise (KeyError "task-7") (demo_uploaded "flat").
Proof.
  apply (process_task_raises_iff_unregistered (demo_world [] good_download) 3 "task-7"
           "uploads/task-7.zip" (demo_uploaded "flat")).
  reflexivity.
Defined.

Lemma end_status_cases (r : run_end) :
  if still_polling r then end_status r = processing
  else end_status r = completed \/ end_status r = failed.
Proof. destruct r as [| | |n wid ps le [c|]]; cbn; auto; destruct le; cbn; auto. Qed.

(** X18. The record of a registered task after a run of [process_task]: when
    the run has returned its status is [completed] or [failed], never one of
    the intermediate ones; while the run is still inside the polling loop it
    is [processing]. *)
Theorem run_ends_completed_or_failed (w : world) (fuel : nat)
    (task_id archive_path : string) (s : state) (t0 : task) :
  tasks s !! task_id = Some t0 ->
  let res := process_task w fuel task_id archive_path s in
  exists t',
    tasks (final_state res) !! task_id = Some t'
    /\ match res with
       | Ret _ _ => status t' = completed \/ status t' = failed
       | Polling _ => status t' = processing
       | Raise _ _ => False
       end.
Proof.
  intros Ht0 res.
  destruct (process_task_observed w fuel task_id archive_path s t0 Ht0)
    as (r & s1 & _ & E & _ & Ht & _).
  fold res in E, Ht. eexists. split; [exact Ht|].
  rewrite status_final. pose proof (end_status_cases r) as H.
  rewrite E. now destruct (still_polling r).
Qed.

(** A run that downloads its result. *)
Lemma run_ends_completed_or_failed_witness :
  exists t',
    tasks (final_state (process_task (demo_world [remote_completed 100] good_download) 2
                          "task-0" "uploads/task-0.zip" (demo_uploaded "flat")))
      !! "task-0" = Some t'
    /\ (status t' = completed \/ status t' = failed).
Proof.
  destruct (run_ends_completed_or_failed (demo_world [remote_completed 100] good_download) 2
              "task-0" "uploads/task-0.zip" (demo_uploaded "flat")
              (Task "task-0" queued 0 "Task queued" "photos.zip" 0 None None) eq_refl)
    as (t' & Ht & H).
  exists t'. split; [exact Ht | exact H].
Defined.

(** X19. If the remote service, whatever identifier it is asked about,
    answers one of the first [fuel] status requests of a run with one of the
    codes 40, 30 and 50, the run of a registered task returns within those
    iterations, and leaves the task [completed] or [failed]. *)
Theorem process_task_terminates (w : world) (fuel : nat) (task_id archive_path : string)
    (s : state) (t0 : task) :
  tasks s !! task_id = Some t0 ->
  (forall wid, exists k code p,
      k < fuel
      /\ parse_info (requests_get_info w wid (polled s + k)) = Some (StatusData code p)
      /\ terminal_code code = true) ->
  exists s' t',
    process_task w fuel task_id archive_path s = Ret tt s'
    /\ tasks s' !! task_id = Some t'
    /\ (status t' = completed \/ status t' = failed).
Proof.
  intros Ht0 Hlive.
  destruct (process_task_returns w fuel task_id archive_path s t0 Ht0 Hlive) as (s' & E).
  destruct (process_task_observed w fuel task_id archive_path s t0 Ht0)
    as (r & s1 & _ & E' & _ & Ht & _).
  pose proof E as E0. rewrite E in E', Ht. cbn [final_state] in E', Ht.
  exists s'. eexists. split; [exact E0|]. split; [exact Ht|].
  rewrite status_final. pose proof (end_status_cases r) as H.
  destruct (still_polling r); [discriminate E' | exact H].
Qed.

(** The second answer carries the code 40 and the download fails. *)
Lemma process_task_terminates_witness :
  exists s' t',
    process_task (demo_world [remote_running 10; remote_completed 100] DlRaise) 2
      "task-0" "uploads/task-0.zip" (demo_uploaded "flat") = Ret tt s'
    /\ tasks s' !! "task-0" = Some t'
    /\ (status t' = completed \/ status t' = failed).
Proof.
  apply (process_task_terminates (demo_world [remote_running 10; remote_completed 100] DlRaise)
           2 "task-0" "uploads/task-0.zip" (demo_uploaded "flat")
           (Task "task-0" queued 0 "Task queued" "photos.zip" 0 None None)).
  - reflexivity.
  - intros wid. exists 1, 40%Z, 100%Z. split; [lia|]. split; reflexivity.
Defined.

Lemma tasks_writes_other (task_id j : string) (ts : list task) (s : state) :
  j <> task_id -> tasks (writes task_id ts s) !! j = tasks s !! j.
Proof.
  intros Hj. revert s. induction ts as [|t ts IH]; intros s; [reflexivity|].
  cbn [writes fold_left]. fold (writes task_id ts (write task_id t s)). rewrite IH.
  cbn [tasks write with_tasks]. now apply lookup_insert_ne.
Qed.

(** X20. A run of [process_task] writes to no record but its own: every other
    entry of the registry is what it was, every record a reader could see
    written during the run is stored under the task's identifier, and the
    run neither registers nor unregisters the task. *)
Theorem process_task_touches_own_record_only (w : world) (fuel : nat)
    (task_id archive_path : string) (s : state) :
  let s' := final_state (process_task w fuel task_id archive_path s) in
  (forall j, j <> task_id -> tasks s' !! j = tasks s !! j)
  /\ (forall j t, (j, t) ∈ observed s s' -> j = task_id)
  /\ (is_Some (tasks s' !! task_id) <-> is_Some (tasks s !! task_id)).
Proof.
  intros s'. subst s'.
  destruct (tasks s !! task_id) as [t0|] eqn:Ht0.
  - destruct (process_task_run w fuel task_id archive_path s t0 Ht0)
      as (r & s1 & s' & _ & E & Hw & _).
    assert (Hs : final_state (process_task w fuel task_id archive_path s) = s')
      by (rewrite E; now destruct (still_polling r)).
    rewrite Hs. conjs.
    + intros j Hj. destruct Hw as [-> _]. now apply tasks_writes_other.
    + intros j t. rewrite (wrote_observed _ _ _ _ Hw).
      now intros (x & [= -> _] & _)%list_elem_of_fmap.
    + rewrite (wrote_cur _ _ _ _ _ Hw Ht0). split; eauto.
  - rewrite (process_task_unregistered w fuel task_id archive_path s Ht0).
    cbn [final_state]. conjs; try reflexivity.
    + intros j t. unfold observed. rewrite Nat.sub_diag. cbn. now intros ?%elem_of_nil.
    + now rewrite Ht0.
Qed.

Lemma os_listdir_resolve (s : state) (p : string) (tree : list entry) :
  resolve_dir s p = Some tree -> os_listdir p s = Ret (entry_name <$> tree) s.
Proof. unfold os_listdir. now intros ->. Qed.

(** X21. When the extraction succeeds and no name directly below the
    extraction directory has an image extension, whatever lies deeper: the
    task announces [Uploading 0 images...] and ends [failed] with the message
    [No images found]; six records are written; no status request is sent;
    and the run returns before its cleanup, so the archive and the extracted
    tree stay on disk. *)
Theorem no_image_at_top_level (w : world) (fuel : nat) (task_id archive_path : string)
    (s s0 s1 : state) (t0 : task) (tree : list entry) :
  tasks s !! task_id = Some t0 ->
  let extract_dir := Py.path_join TEMP_DIR task_id in
  let started := mark extracting "Extracting images..." t0 in
  os_makedirs extract_dir (writes task_id started s) = Ret tt s0 ->
  extract_archive w archive_path extract_dir s0 = Ret true s1 ->
  resolve_dir s1 extract_dir = Some tree ->
  List.filter is_image (entry_name <$> tree) = [] ->
  exists s',
    process_task w fuel task_id archive_path s = Ret tt s'
    /\ (snd <$> observed s s')
       = started
         ++ mark uploading "Uploading 0 images..." (cur t0 started)
         ++ mark failed "No images found"
              (cur t0 (mark uploading "Uploading 0 images..." (cur t0 started)))
    /\ (exists t', tasks s' !! task_id = Some t'
                   /\ status t' = failed /\ message t' = "No images found"
                   /\ webodm_task_id t' = webodm_task_id t0)
    /\ files s' = files s
    /\ dirs s' = dirs s1
    /\ polled s' = polled s.
Proof.
  intros Ht0 extract_dir started Hmk Hex Hres Hnone.
  destruct (os_makedirs_run extract_dir (writes task_id started s)) as (d1 & [E1 | [e1 E1]]);
    rewrite Hmk in E1; [| discriminate]. injection E1 as ->.
  destruct (extract_archive_run w archive_path extract_dir
              (with_dirs d1 (writes task_id started s)))
    as (d2 & [E2 | (msg & E2 & Hmsg)]);
    pose proof (eq_trans (eq_sym Hex) E2) as Heq; [| discriminate Heq].
  injection Heq as ->.
  unfold process_task, try_except, process_task_body.
  do 2 step_write. cbv zeta. fold extract_dir.
  erewrite bind_Ret by exact Hmk. cbv beta.
  erewrite bind_Ret by exact Hex. cbv beta.
  erewrite bind_Ret by reflexivity. cbv beta.
  erewrite image_folder_is_root by reflexivity.
  erewrite bind_Ret by (apply os_listdir_resolve; exact Hres). cbv beta.
  rewrite Hnone. cbn [length].
  do 2 step_write.
  erewrite bind_Ret
    by (eapply upload_no_images; [apply os_listdir_resolve; exact Hres | exact Hnone]).
  cbv beta. cbn [fst snd Py.truthy String.eqb negb default].
  unfold bind. do 2 registry_write.
  eexists. split; [reflexivity |].
  match goal with
  | |- snd <$> observed s ?X = _ /\ _ =>
      assert (Hobs : observed s X
                     = (fun t => (task_id, t)) <$>
                         run_trace task_id t0 (UploadRejected 0 "No images found"))
        by (apply wrote_observed; now split)
  end.
  rewrite Hobs. conjs.
  - reflexivity.
  - eexists. split; [apply lookup_insert_eq|]. now conjs.
  - reflexivity.
  - reflexivity.
  - reflexivity.
Qed.

(** An archive whose images are all inside the folder [photos]. *)
Lemma no_image_at_top_level_witness :
  exists s',
    process_task (demo_world [] good_download) 3 "task-0" "uploads/task-0.zip"
      (demo_uploaded "nested") = Ret tt s'
    /\ (message <$> tasks s' !! "task-0") = Some "No images found"
    /\ files s' !! "uploads/task-0.zip" = Some "nested"
    /\ dirs s' !! "temp/task-0" = Some [Dir "photos" [File "a.jpg"; File "b.jpg"]].
Proof.
  destruct (no_image_at_top_level (demo_world [] good_download) 3 "task-0"
              "uploads/task-0.zip" (demo_uploaded "nested")
              (final_state (os_makedirs "temp/task-0"
                 (writes "task-0"
                    (mark extracting "Extracting images..."
                       (Task "task-0" queued 0 "Task queued" "photos.zip" 0 None None))
                    (demo_uploaded "nested"))))
              (final_state (extract_archive (demo_world [] good_download)
                 "uploads/task-0.zip" "temp/task-0"
                 (final_state (os_makedirs "temp/task-0"
                    (writes "task-0"
                       (mark extracting "Extracting images..."
                          (Task "task-0" queued 0 "Task queued" "photos.zip" 0 None None))
                       (demo_uploaded "nested"))))))
              (Task "task-0" queued 0 "Task queued" "photos.zip" 0 None None)
              [Dir "photos" [File "a.jpg"; File "b.jpg"]])
    as (s' & E & _ & (t' & Ht & _ & Hm & _) & Hf & Hd & _).
  - reflexivity.
  - vm_compute; reflexivity.
  - vm_compute; reflexivity.
  - vm_compute; reflexivity.
  - reflexivity.
  - exists s'. split; [exact E|]. split; [rewrite Ht; cbn; now rewrite Hm|].
    split; [rewrite Hf | rewrite Hd]; vm_compute; reflexivity.
Defined.

(** ** An upload that returns no identifier (src/utils, process_task, lines 161-177) *)

Lemma collect_images_tasks (w : world) (image_folder : string) (filenames : list string)
    (m : gmap string task) (lg : list (string * task)) :
  forall (files_list l : list (string * string)) (s s' : state),
    collect_images w image_folder filenames files_list s = Ret l s' ->
    collect_images w image_folder filenames files_list (with_tasks m lg s)
    = Ret l (with_tasks m lg s).
Proof.
  induction filenames as [|filename rest IH]; intros files_list l s s' E;
    cbn [collect_images] in *.
  - now injection E as <- _.
  - destruct (is_image filename); [|now apply IH with s'].
    unfold bind, open_rb in *.
    change (resolve_dir (with_tasks m lg s) (Py.path_join image_folder filename))
      with (resolve_dir s (Py.path_join image_folder filename)).
    change (is_regular_file (with_tasks m lg s) (Py.path_join image_folder filename))
      with (is_regular_file s (Py.path_join image_folder filename)).
    destruct (bool_decide _); [discriminate E|].
    destruct (is_regular_file _ _); [|discriminate E].
    now apply IH with s'.
Qed.

Lemma upload_images_to_webodm_tasks (w : world) (image_folder task_name : string)
    (m : gmap string task) (lg : list (string * task)) (s s' : state)
    (r : option string * option string) :
  upload_images_to_webodm w image_folder task_name s = Ret r s' ->
  upload_images_to_webodm w image_folder task_name (with_tasks m lg s)
  = Ret r (with_tasks m lg s).
Proof.
  unfold upload_images_to_webodm. intros E.
  unfold bind at 1 in E. unfold bind at 1. unfold os_listdir in *.
  change (resolve_dir (with_tasks m lg s) image_folder) with (resolve_dir s image_folder).
  change (is_regular_file (with_tasks m lg s) image_folder)
    with (is_regular_file s image_folder).
  destruct (resolve_dir s image_folder) as [tree|].
  2:{ destruct (is_regular_file s image_folder); discriminate E. }
  destruct (collect_images_run w image_folder (entry_name <$> tree) [] s) as [[l E2]|[e E2]].
  2:{ rewrite (bind_Raise _ _ _ _ _ E2) in E. discriminate E. }
  rewrite (bind_Ret _ _ _ _ _ E2) in E.
  rewrite (bind_Ret _ _ _ _ _ (collect_images_tasks w _ _ m lg _ _ _ _ E2)).
  destruct l as [|x l]; [unfold ret in *; now injection E as <- _|].
  destruct (requests_post w (x :: l) task_name) as [msg|code body];
    [unfold ret in *; now injection E as <- _|].
  destruct (code =? 200)%Z; [destruct body|]; unfold ret in *; now injection E as <- _.
Qed.

Lemma files_writes (task_id : string) (ts : list task) (s : state) :
  files (writes task_id ts s) = files s.
Proof.
  revert s. induction ts as [|t ts IH]; intros s; [reflexivity|].
  cbn [writes fold_left]. fold (writes task_id ts (write task_id t s)). now rewrite IH.
Qed.

(** X22. When the upload returns without an error and without an identifier
    (a 200 whose JSON body has no [uuid]; the same holds for an error with
    the empty text, which [if error:] takes for no error), the task is not
    failed: the record stores the remote identifier [None], the status
    becomes [processing], and the polling loop is entered asking about the
    identifier [None].  If the remote service never has an answer for that
    identifier, the task stays [processing] however long the loop runs, and
    no file is deleted. *)
Theorem upload_without_id_still_polls (w : world) (task_id archive_path : string)
    (s s0 s1 : state) (t0 : task) (error : option string) :
  tasks s !! task_id = Some t0 ->
  let extract_dir := Py.path_join TEMP_DIR task_id in
  let started := mark extracting "Extracting images..." t0 in
  os_makedirs extract_dir (writes task_id started s) = Ret tt s0 ->
  extract_archive w archive_path extract_dir s0 = Ret true s1 ->
  upload_images_to_webodm w extract_dir ("Task-" +:+ task_id) s1 = Ret (None, error) s1 ->
  Py.truthy error = false ->
  exists q,
    status q = processing /\ webodm_task_id q = Some None
    /\ message q = "Processing orthomosaic..."
    /\ (exists s', process_task w 0 task_id archive_path s = Polling s'
                   /\ tasks s' !! task_id = Some q)
    /\ ((forall n, parse_info (requests_get_info w None n) = None) ->
        forall fuel, exists s',
          process_task w fuel task_id archive_path s = Polling s'
          /\ tasks s' !! task_id = Some q
          /\ files s' = files s).
Proof.
  intros Ht0 extract_dir started Hmk Hex Hup Herr.
  destruct (os_makedirs_run extract_dir (writes task_id started s)) as (d1 & [E1 | [e1 E1]]);
    rewrite Hmk in E1; [| discriminate]. injection E1 as ->.
  destruct (extract_archive_run w archive_path extract_dir
              (with_dirs d1 (writes task_id started s)))
    as (d2 & [E2 | (msg & E2 & Hmsg)]);
    pose proof (eq_trans (eq_sym Hex) E2) as Heq; [| discriminate Heq].
  injection Heq as ->.
  assert (Hlist : exists names, os_listdir extract_dir
                    (with_dirs d2 (with_dirs d1 (writes task_id started s)))
                  = Ret names (with_dirs d2 (with_dirs d1 (writes task_id started s)))).
  { match goal with |- exists names, os_listdir ?d ?st = _ =>
      destruct (os_listdir_run d st) as [H|[e H]]; [exact H|] end.
    unfold upload_images_to_webodm in Hup. rewrite (bind_Raise _ _ _ _ _ H) in Hup.
    discriminate Hup. }
  destruct Hlist as (names & Hlist).
  assert (Hrun : forall fuel,
    process_task w fuel task_id archive_path s
    = try_except
        (poll_loop w fuel task_id None ;;;
         shutil_rmtree extract_dir ;;; os_remove archive_path)
        (fun e => set_item task_id (set_status failed) ;;;
                  set_item task_id (set_message (str e)))
        (with_dirs d2 (with_dirs d1
           (writes task_id
              (loop_prefix (length (List.filter is_image names)) None t0) s)))).
  { intros fuel. unfold process_task, try_except, process_task_body.
    do 2 step_write. cbv zeta. fold extract_dir.
    erewrite bind_Ret by exact Hmk. cbv beta.
    erewrite bind_Ret by exact Hex. cbv beta.
    erewrite bind_Ret by reflexivity. cbv beta.
    erewrite image_folder_is_root by reflexivity.
    erewrite bind_Ret by exact Hlist. cbv beta.
    do 2 step_write.
    erewrite bind_Ret
      by (eapply (upload_images_to_webodm_tasks w extract_dir _ _ _ _ _ _ Hup)).
    cbv beta. cbn [fst snd]. rewrite Herr.
    do 3 step_write. reflexivity. }
  exists (loop_start (length (List.filter is_image names)) None t0).
  split; [reflexivity|]. split; [reflexivity|]. split; [reflexivity|]. split.
  - eexists. rewrite Hrun. cbn [poll_loop]. unfold try_except, bind.
    split; [reflexivity|]. cbn [tasks with_dirs]. now apply tasks_writes_cur.
  - intros Habsent fuel. rewrite Hrun.
    match goal with |- context [try_except _ _ ?st] =>
      destruct (poll_absent_forever w task_id None Habsent fuel st)
        as (s' & E & Ht & _ & _);
      destruct (poll_loop_run w task_id None fuel st
                  (loop_start (length (List.filter is_image names)) None t0))
        as (ps & le & s2 & E' & _ & _ & _ & _ & Hsame);
      [cbn [tasks with_dirs]; now apply tasks_writes_cur|]
    end.
    rewrite E in E'. destruct le; try discriminate E'. injection E' as <-.
    exists s'. unfold try_except. rewrite (bind_Polling _ _ _ _ E).
    split; [reflexivity|]. split.
    + rewrite Ht. cbn [tasks with_dirs]. now apply tasks_writes_cur.
    + rewrite Hsame by reflexivity. cbn [files with_dirs]. apply files_writes.
Qed.

(** An upload answered with a 200 that names no task. *)
Lemma upload_without_id_still_polls_witness :
  exists q s',
    process_task no_uuid_world 5 "task-0" "uploads/task-0.zip" (demo_uploaded "flat")
    = Polling s'
    /\ tasks s' !! "task-0" = Some q
    /\ status q = processing /\ webodm_task_id q = Some None.
Proof.
  destruct (upload_without_id_still_polls no_uuid_world "task-0" "uploads/task-0.zip"
              (demo_uploaded "flat")
              (final_state (os_makedirs "temp/task-0"
                 (writes "task-0"
                    (mark extracting "Extracting images..."
                       (Task "task-0" queued 0 "Task queued" "photos.zip" 0 None None))
                    (demo_uploaded "flat"))))
              (final_state (extract_archive no_uuid_world
                 "uploads/task-0.zip" "temp/task-0"
                 (final_state (os_makedirs "temp/task-0"
                    (writes "task-0"
                       (mark extracting "Extracting images..."
                          (Task "task-0" queued 0 "Task queued" "photos.zip" 0 None None))
                       (demo_uploaded "flat"))))))
              (Task "task-0" queued 0 "Task queued" "photos.zip" 0 None None)
              None)
    as (q & Hs & Hw & _ & _ & Hall).
  - reflexivity.
  - vm_compute; reflexivity.
  - vm_compute; reflexivity.
  - vm_compute; reflexivity.
  - reflexivity.
  - destruct (Hall (fun n => eq_refl) 5) as (s' & E & Ht & _).
    exists q, s'. auto.
Defined.
